(** * virtme-mkinitramfs: the initramfs assembly pipeline

    A shallow embedding of [virtme/mkinitramfs.py] and the properties of
    its dependency resolver, layout builder, payload installer, init
    script generator and top-level assembler.

    Conventions of the embedding.
    - A Python [str] and a Python [bytes] are both a [string]: the
      sequence of bytes of the text in UTF-8.  [encode('utf-8')] is then
      the identity and [encode('ascii')] fails exactly on a byte >= 128.
    - File modes and device numbers are [N].
    - The host file system and the ELF reader are a [Host] record the
      functions take as an argument.
    - The archive writer [cw] is write-only: a function that receives [cw]
      becomes a computation in [Cpio], which yields the calls it made on
      the writer, in order, together with its result or the exception it
      raised. *)

From Stdlib Require Import String Ascii List Arith NArith Bool Lia.
Import ListNotations.
Local Open Scope list_scope.
Local Open Scope string_scope.

(** ** Characters and text *)

Definition bytes := string.

Definition dq : string := String (ascii_of_nat 34) EmptyString.
Definition tab : string := String (ascii_of_nat 9) EmptyString.
Definition nl : string := String (ascii_of_nat 10) EmptyString.

Definition sep : ascii := "/"%char.

(** [sep.join(l)] of Python. *)
Fixpoint join (s : string) (l : list string) : string :=
  match l with
  | [] => EmptyString
  | [x] => x
  | x :: rest => x ++ s ++ join s rest
  end.

(** The text of a triple-quoted literal: every line ends in a newline. *)
Fixpoint unlines (l : list string) : string :=
  match l with
  | [] => EmptyString
  | x :: rest => x ++ nl ++ unlines rest
  end.

Definition startswith_sep (s : string) : bool :=
  match s with
  | String c _ => Ascii.eqb c sep
  | EmptyString => false
  end.

Fixpoint endswith_sep (s : string) : bool :=
  match s with
  | EmptyString => false
  | String c EmptyString => Ascii.eqb c sep
  | String _ rest => endswith_sep rest
  end.

(** [s.lstrip('/')]: every leading separator is removed. *)
Fixpoint lstrip_sep (s : string) : string :=
  match s with
  | String c rest => if Ascii.eqb c sep then lstrip_sep rest else s
  | EmptyString => EmptyString
  end.

Module os_path.

(** [posixpath.join(a, b)]: an absolute [b] replaces [a]; otherwise the
    two are glued with one separator, unless [a] is empty or already
    ends in one. *)
Definition join (a b : string) : string :=
  if startswith_sep b then b
  else if orb (String.eqb a EmptyString) (endswith_sep a) then a ++ b
  else a ++ String sep b.

(** [posixpath.basename(p)]: [p[p.rfind('/') + 1:]], what follows the
    last separator.  [tail] is what has been read since the last one. *)
Fixpoint basename_from (tail p : string) : string :=
  match p with
  | EmptyString => tail
  | String c rest =>
      if Ascii.eqb c sep then basename_from EmptyString rest
      else basename_from (tail ++ String c EmptyString) rest
  end.

Definition basename (p : string) : string := basename_from EmptyString p.

End os_path.

(** ** Exceptions *)

Inductive exn : Type :=
| OSError (path : string)       (* [open] failed on this path *)
| TypeError                     (* [open(None)], unpacking [None] *)
| ELFError                      (* the file is not an ELF image *)
| UnicodeEncodeError (s : string)
| ValueError
| IndexError
| KeyError (key : string).

Definition result (A : Type) : Type := (exn + A)%type.

(** [s.encode('ascii')] *)
Definition is_ascii (s : string) : bool :=
  forallb (fun c => N.ltb (N_of_ascii c) 128) (list_ascii_of_string s).

Definition encode_ascii (s : string) : result bytes :=
  if is_ascii s then inr s else inl (UnicodeEncodeError s).

(** [s.encode('utf-8')] *)
Definition encode_utf8 (s : string) : bytes := s.

(** ** The host: files and the ELF reader *)

(** A tag of the dynamic section as [pyelftools] presents it:
    [tag.entry.d_tag] and, on a [DT_NEEDED] tag, [tag.needed]. *)
Record DynamicTag : Type := {
  d_tag : string;
  needed : string
}.

(** What [ELFFile] exposes of an image: the section named [.dynamic], when
    there is one, as its tags in file order. *)
Record ELFFile : Type := {
  dynamic : option (list DynamicTag)
}.

Record Host : Type := {
  (** [open(path, 'rb')]: the content when the file can be read. *)
  read_file : string -> option bytes;
  (** [os.path.isfile(path)] *)
  isfile : string -> bool;
  (** [ELFFile(f)] on a stream of that content; [None] when the reader
      rejects it. *)
  parse_elf : bytes -> option ELFFile
}.

Definition open_rb (h : Host) (path : option string) : result bytes :=
  match path with
  | None => inl TypeError
  | Some p =>
      match read_file h p with
      | Some body => inr body
      | None => inl (OSError p)
      end
  end.

(** ** Dependency resolver *)

Definition ld_paths : list string := ["/lib"; "/lib64"; "/usr/lib"; "/usr/lib64"].

Definition is_dt_needed (tag : DynamicTag) : bool :=
  String.eqb (d_tag tag) "DT_NEEDED".

(** The loop of [find_library_path] over the directories still to try.
    Falling off its end is Python's implicit [return None]. *)
Fixpoint find_library_path_in (h : Host) (dirs : list string) (name : string)
  : option (string * string) :=
  match dirs with
  | [] => None
  | ld_path :: rest =>
      let ld_path := os_path.join ld_path name in
      if isfile h ld_path then Some (ld_path, lstrip_sep ld_path)
      else find_library_path_in h rest name
  end.

Definition find_library_path (h : Host) (name : string) : option (string * string) :=
  find_library_path_in h ld_paths name.

Definition find_needed_paths (h : Host) (executable : option string)
  : result (list (option (string * string))) :=
  match open_rb h executable with
  | inl e => inl e
  | inr f =>
      match parse_elf h f with
      | None => inl ELFError
      | Some elffile =>
          match dynamic elffile with
          | None => inr []
          | Some tags =>
              let neededs := map needed (filter is_dt_needed tags) in
              inr (map (find_library_path h) neededs)
          end
      end
  end.

(** ** The archive writer *)

(** Modelled from the spec: the [cpiowriter.CpioWriter] class is defined
    outside this module.  It is the narrow sink of five operations (create
    directory, create symbolic link, create character device, write file,
    write trailer); the model records each call with its arguments and
    lets none of them fail. *)
Inductive CpioCall : Type :=
| call_mkdir (name : bytes) (mode : N)
| call_symlink (src dst : bytes)
| call_mkchardev (name : bytes) (devno : N * N) (mode : N)
| call_write_file (name : bytes) (body : bytes) (mode : N)
| call_write_trailer.

(** A computation over the writer: the calls made so far, and either the
    value returned or the exception that stopped it. *)
Definition Cpio (A : Type) : Type := (list CpioCall * result A)%type.

Definition calls {A} (m : Cpio A) : list CpioCall := fst m.
Definition outcome {A} (m : Cpio A) : result A := snd m.

Definition ret {A} (a : A) : Cpio A := ([], inr a).
Definition raise {A} (e : exn) : Cpio A := ([], inl e).
Definition lift {A} (r : result A) : Cpio A := ([], r).
Definition emit (c : CpioCall) : Cpio unit := ([c], inr tt).

Definition bind {A B} (m : Cpio A) (k : A -> Cpio B) : Cpio B :=
  match m with
  | (out, inl e) => (out, inl e)
  | (out, inr a) => let (out', r) := k a in ((out ++ out')%list, r)
  end.

Declare Scope cpio_scope.
Delimit Scope cpio_scope with cpio.
Notation "x <- m ;; k" := (bind m (fun x => k))
  (at level 61, m at next level, right associativity) : cpio_scope.
Notation "m ;; k" := (bind m (fun _ => k))
  (at level 61, right associativity) : cpio_scope.
Local Open Scope cpio_scope.

(** A [for] statement whose body only acts on the writer. *)
Fixpoint for_each {A} (l : list A) (body : A -> Cpio unit) : Cpio unit :=
  match l with
  | [] => ret tt
  | x :: rest => body x ;; for_each rest body
  end.

Definition mkdir (name : bytes) (mode : N) : Cpio unit := emit (call_mkdir name mode).
Definition symlink (src dst : bytes) : Cpio unit := emit (call_symlink src dst).
Definition mkchardev (name : bytes) (devno : N * N) (mode : N) : Cpio unit :=
  emit (call_mkchardev name devno mode).
Definition write_file (name body : bytes) (mode : N) : Cpio unit :=
  emit (call_write_file name body mode).
Definition write_trailer : Cpio unit := emit call_write_trailer.

(** Octal permission literals of the source. *)
Definition o755 : N := 7 * 64 + 5 * 8 + 5.
Definition o644 : N := 6 * 64 + 4 * 8 + 4.
Definition o666 : N := 6 * 64 + 6 * 8 + 6.
Definition o660 : N := 6 * 64 + 6 * 8 + 0.

(** ** Layout builder *)

Definition base_dirs : list bytes :=
  ["lib"; "bin"; "var"; "etc"; "newroot"; "dev"; "proc";
   "tmproot"; "run_virtme"; "run_virtme/data"; "run_virtme/guesttools"].

Definition make_base_layout : Cpio unit :=
  for_each base_dirs (fun dir => mkdir dir o755) ;;
  symlink "bin" "sbin" ;;
  symlink "lib" "lib64".

Definition make_dev_nodes : Cpio unit :=
  mkchardev "dev/null" (1, 3)%N o666 ;;
  mkchardev "dev/kmsg" (1, 11)%N o666 ;;
  mkchardev "dev/console" (5, 1)%N o660.

Definition copy (h : Host) (src : option string) (dst : bytes) (mode : N) : Cpio unit :=
  f <- lift (open_rb h src) ;;
  write_file dst f mode.

(** ** Configuration *)

Record Config : Type := {
  modfiles : option (list string);
  (** a [dict]: the pairs in insertion order, which is the order [items()]
      yields them in *)
  virtme_data : list (bytes * bytes);
  virtme_init_path : option string;
  busybox : option string;
  access : string
}.

(** [Config()] *)
Definition Config_init : Config := {|
  modfiles := Some [];
  virtme_data := [];
  virtme_init_path := None;
  busybox := None;
  access := "ro"
|}.

Definition busybox_tools : list string :=
  ["sh"; "mount"; "umount"; "switch_root"; "sleep"; "mkdir";
   "mknod"; "insmod"; "cp"; "cat"].

(** The body of the loop over the resolved dependencies: the tuple
    pattern of the [for] fails on an entry that is [None]. *)
Definition install_needed (h : Host) (entry : option (string * string)) : Cpio unit :=
  match entry with
  | None => raise TypeError
  | Some (needed_path, target_path) =>
      dst <- lift (encode_ascii target_path) ;;
      copy h (Some needed_path) dst o755
  end.

Definition install_busybox (h : Host) (config : Config) : Cpio unit :=
  copy h (busybox config) "bin/busybox" o755 ;;
  paths <- lift (find_needed_paths h (busybox config)) ;;
  for_each paths (install_needed h) ;;
  for_each busybox_tools (fun tool =>
    dst <- lift (encode_ascii ("bin/" ++ tool)) ;;
    symlink "busybox" dst) ;;
  mkdir "bin/real_progs" o755.

Definition modprobe_body : bytes :=
  join nl [
    "#!/bin/sh";
    "echo " ++ dq ++ "virtme: initramfs does not have module $3" ++ dq ++ " >/dev/console";
    "exit 1"
  ].

Definition install_modprobe : Cpio unit :=
  write_file "bin/modprobe" modprobe_body o755.

(** ** Payload installer *)

Definition _LOGFUNC : string :=
  unlines [
    "log() {";
    "    if [[ -e /dev/kmsg ]]; then";
    tab ++ "echo " ++ dq ++ "<6>virtme initramfs: $*" ++ dq ++ " >/dev/kmsg";
    "    else";
    tab ++ "echo " ++ dq ++ "virtme initramfs: $*" ++ dq;
    "    fi";
    "}"
  ].

Module shlex.

(** The characters outside the class [[^\w@%+=:,./-]] (ASCII flag). *)
Definition is_safe (c : ascii) : bool :=
  let n := N_of_ascii c in
  (N.leb 48 n && N.leb n 57) || (N.leb 65 n && N.leb n 90)
  || (N.leb 97 n && N.leb n 122)
  || existsb (Ascii.eqb c) (list_ascii_of_string "_@%+=:,./-").

(** The [replace] of [quote]: each single quote becomes the five
    characters that close the quoting, give a quoted single quote and
    open it again. *)
Fixpoint escape_quotes (s : string) : string :=
  match s with
  | EmptyString => EmptyString
  | String c rest =>
      if Ascii.eqb c "'"%char
      then "'" ++ dq ++ "'" ++ dq ++ "'" ++ escape_quotes rest
      else String c (escape_quotes rest)
  end.

Definition quote (s : string) : string :=
  match s with
  | EmptyString => "''"
  | _ =>
      if forallb is_safe (list_ascii_of_string s) then s
      else "'" ++ escape_quotes s ++ "'"
  end.

End shlex.

(** One line of the loader script, for the archive path [p] of a module. *)
Definition load_line (p : string) : string :=
  "log 'loading " ++ os_path.basename p ++ "...'; insmod " ++ shlex.quote p.

Definition load_all_script (paths : list string) : string :=
  _LOGFUNC ++ join nl (map load_line paths).

(** The loop of [install_modules]; [paths] is the list it appends to. *)
Fixpoint install_modules_loop (h : Host) (modfiles : list string) (paths : list string)
  : Cpio (list string) :=
  match modfiles with
  | [] => ret paths
  | modfile :: rest =>
      f <- lift (open_rb h (Some modfile)) ;;
      let modpath := "modules/" ++ os_path.basename modfile in
      let paths := (paths ++ [modpath])%list in
      name <- lift (encode_ascii modpath) ;;
      write_file name f o644 ;;
      install_modules_loop h rest paths
  end.

Definition install_modules (h : Host) (modfiles : list string) : Cpio unit :=
  mkdir "modules" o755 ;;
  paths <- install_modules_loop h modfiles [] ;;
  body <- lift (encode_ascii (load_all_script paths)) ;;
  write_file "modules/load_all.sh" body o644.

(** ** Init script generator *)

Definition _INIT : string :=
  unlines [
    "#!/bin/sh";
    EmptyString;
    "{logfunc}";
    EmptyString;
    "source /modules/load_all.sh";
    EmptyString;
    "log 'mounting hostfs...'";
    EmptyString;
    "if ! /bin/mount -n -t 9p -o {access},version=9p2000.L,trans=virtio,access=any /dev/root /newroot/; then";
    "  echo " ++ dq ++ "Failed to mount real root.  We are stuck." ++ dq;
    "  sleep 5";
    "  exit 1";
    "fi";
    EmptyString;
    "# Can we actually use /newroot/ as root?";
    "if ! mount -t proc -o nosuid,noexec,nodev proc /newroot/proc 2>/dev/null; then";
    "  # QEMU 1.5 and below have a bug in virtfs that prevents mounting";
    "  # anything on top of a virtfs mount.";
    "  log " ++ dq ++ "your host's virtfs is broken -- using a fallback tmpfs" ++ dq;
    "  need_fallback_tmpfs=1";
    "else";
    "  umount /newroot/proc  # Don't leave garbage behind";
    "fi";
    EmptyString;
    "if ! [[ -d /newroot/run ]]; then";
    "  log " ++ dq ++ "your guest's root does not have /run -- using a fallback tmpfs" ++ dq;
    "  need_fallback_tmpfs=1";
    "fi";
    EmptyString;
    "if [[ " ++ dq ++ "$need_fallback_tmpfs" ++ dq ++ " != " ++ dq ++ dq ++ " ]]; then";
    "  mount --move /newroot /tmproot";
    "  mount -t tmpfs root_workaround /newroot/";
    "  cd tmproot";
    "  mkdir /newroot/proc /newroot/sys /newroot/dev /newroot/run /newroot/tmp";
    "  for i in *; do";
    "    if [[ -d " ++ dq ++ "$i" ++ dq ++ " && \! -d " ++ dq ++ "/newroot/$i" ++ dq ++ " ]]; then";
    "      mkdir /newroot/" ++ dq ++ "$i" ++ dq;
    "      mount --bind " ++ dq ++ "$i" ++ dq ++ " /newroot/" ++ dq ++ "$i" ++ dq;
    "    fi";
    "  done";
    "  mknod /newroot/dev/null c 1 3";
    "  mount -o remount,ro -t tmpfs root_workaround /newroot";
    "  umount -l /tmproot";
    "fi";
    EmptyString;
    "mount -t tmpfs run /newroot/run";
    "cp -a /run_virtme /newroot/run/virtme";
    EmptyString;
    "# Find init";
    "mount -t proc none /proc";
    "for arg in `cat /proc/cmdline`; do";
    "  if [[ " ++ dq ++ "${{arg%%=*}}" ++ dq ++ " = " ++ dq ++ "init" ++ dq ++ " ]]; then";
    "    init=" ++ dq ++ "${{arg#init=}}" ++ dq;
    "    break";
    "  fi";
    "done";
    "umount /proc";
    EmptyString;
    "if [[ -z " ++ dq ++ "$init" ++ dq ++ " ]]; then";
    "  log 'no init= option'";
    "  exit 1";
    "fi";
    EmptyString;
    "log 'done; switching to real root'";
    "exec /bin/switch_root /newroot " ++ dq ++ "$init" ++ dq ++ " " ++ dq ++ "$@" ++ dq
  ].

(** [str.format] with keyword arguments only, for templates whose
    replacement fields are plain names: a doubled brace stands for one
    brace, [{name}] for the value of [name], which is inserted as it is and
    not read again.  An unmatched brace raises [ValueError] and an empty
    field, which asks for a positional argument, [IndexError].  Conversions
    and format specifications do not occur in the templates of this
    module; a field holding one is looked up as a name and so raises
    [KeyError]. *)
Inductive format_state : Type :=
| Literal                      (* outside a field *)
| Opened                       (* just read one opening brace *)
| Closed                       (* just read one closing brace *)
| Field (name : string).       (* inside a field, [name] read so far *)

Fixpoint lookup (kwargs : list (string * string)) (name : string) : option string :=
  match kwargs with
  | [] => None
  | (k, v) :: rest => if String.eqb k name then Some v else lookup rest name
  end.

Definition prepend (s : string) (r : result string) : result string :=
  match r with
  | inl e => inl e
  | inr t => inr (s ++ t)
  end.

Fixpoint format_from (kwargs : list (string * string)) (st : format_state)
  (template : string) : result string :=
  match template with
  | EmptyString =>
      match st with
      | Literal => inr EmptyString
      | _ => inl ValueError
      end
  | String c rest =>
      let one := String c EmptyString in
      match st with
      | Literal =>
          if Ascii.eqb c "{"%char then format_from kwargs Opened rest
          else if Ascii.eqb c "}"%char then format_from kwargs Closed rest
          else prepend one (format_from kwargs Literal rest)
      | Opened =>
          if Ascii.eqb c "{"%char then prepend one (format_from kwargs Literal rest)
          else if Ascii.eqb c "}"%char then inl IndexError
          else format_from kwargs (Field one) rest
      | Closed =>
          if Ascii.eqb c "}"%char then prepend one (format_from kwargs Literal rest)
          else inl ValueError
      | Field name =>
          if Ascii.eqb c "}"%char then
            match lookup kwargs name with
            | Some v => prepend v (format_from kwargs Literal rest)
            | None => inl (KeyError name)
            end
          else format_from kwargs (Field (name ++ one)) rest
      end
  end.

Definition format (template : string) (kwargs : list (string * string)) : result string :=
  format_from kwargs Literal template.

Definition generate_init (config : Config) : result bytes :=
  match format _INIT [("logfunc", _LOGFUNC); ("access", access config)] with
  | inl e => inl e
  | inr out => inr (encode_utf8 out)
  end.

(** ** Assembler *)

Definition data_dir : bytes := "run_virtme/data/".

Definition mkinitramfs (h : Host) (config : Config) : Cpio unit :=
  make_base_layout ;;
  make_dev_nodes ;;
  install_busybox h config ;;
  install_modprobe ;;
  match modfiles config with
  | Some mods => install_modules h mods
  | None => ret tt
  end ;;
  for_each (virtme_data config) (fun item =>
    let (name, contents) := item in
    write_file (data_dir ++ name) contents o755) ;;
  init <- lift (generate_init config) ;;
  write_file "init" init o755 ;;
  write_trailer.

(** * Vocabulary of the properties *)

(** ** Resolution *)

(** The library names the dynamic section declares, in file order. *)
Definition declared_needed (elffile : ELFFile) : list string :=
  match dynamic elffile with
  | None => []
  | Some tags => map needed (filter is_dt_needed tags)
  end.

(** The executable at [path] can be opened and is the ELF image [elffile]. *)
Definition is_executable (h : Host) (path : option string) (elffile : ELFFile) : Prop :=
  exists f, open_rb h path = inr f /\ parse_elf h f = Some elffile.

(** [host] is where the first directory of [ld_paths] holding a regular
    file for [name] holds it. *)
Definition first_match (h : Host) (name host : string) : Prop :=
  exists before d after,
    ld_paths = (before ++ d :: after)%list /\
    host = os_path.join d name /\
    isfile h host = true /\
    Forall (fun d' => isfile h (os_path.join d' name) = false) before.

Fixpoint seps (k : nat) : string :=
  match k with
  | O => EmptyString
  | S k' => String sep (seps k')
  end.

(** [rel] is [host] without its leading separator (all of them, should the
    path start with several). *)
Definition stripped (host rel : string) : Prop :=
  startswith_sep rel = false /\ exists k, host = seps (S k) ++ rel.

(** The relation between a declared name and the entry resolved for it. *)
Definition resolves (h : Host) (name : string) (entry : string * string) : Prop :=
  first_match h name (fst entry) /\
  stripped (fst entry) (snd entry) /\
  (startswith_sep name = false -> fst entry = String sep (snd entry)).

(** ** Calls on the writer *)

(** The sixteen calls of [make_base_layout] and [make_dev_nodes]. *)
Definition fixed_layout : list CpioCall :=
  [ call_mkdir "lib" o755; call_mkdir "bin" o755; call_mkdir "var" o755;
    call_mkdir "etc" o755; call_mkdir "newroot" o755; call_mkdir "dev" o755;
    call_mkdir "proc" o755; call_mkdir "tmproot" o755;
    call_mkdir "run_virtme" o755; call_mkdir "run_virtme/data" o755;
    call_mkdir "run_virtme/guesttools" o755;
    call_symlink "bin" "sbin"; call_symlink "lib" "lib64";
    call_mkchardev "dev/null" (1, 3)%N o666;
    call_mkchardev "dev/kmsg" (1, 11)%N o666;
    call_mkchardev "dev/console" (5, 1)%N o660 ].

(** Equality of calls is decidable, so occurrences can be counted. *)
Definition CpioCall_eq_dec (a b : CpioCall) : {a = b} + {a <> b}.
Proof. repeat decide equality. Defined.

(** What [mkinitramfs] runs once the layout and the device nodes exist. *)
Definition after_layout (h : Host) (config : Config) : Cpio unit :=
  install_busybox h config ;;
  install_modprobe ;;
  match modfiles config with
  | Some mods => install_modules h mods
  | None => ret tt
  end ;;
  for_each (virtme_data config) (fun item =>
    let (name, contents) := item in
    write_file (data_dir ++ name) contents o755) ;;
  init <- lift (generate_init config) ;;
  write_file "init" init o755 ;;
  write_trailer.

(** The calls of the steps that follow the layout: regular files, links
    to [busybox], and the two directories [bin/real_progs] and [modules]. *)
Definition step_call (c : CpioCall) : Prop :=
  match c with
  | call_write_file _ _ _ => True
  | call_symlink src _ => src = "busybox"
  | call_mkdir name _ => name = "bin/real_progs" \/ name = "modules"
  | call_mkchardev _ _ _ => False
  | call_write_trailer => False
  end.

(** The calls [mkinitramfs] can make once the layout is in place. *)
Definition later_call (c : CpioCall) : Prop :=
  step_call c \/ c = call_write_trailer.

(** [call] writes the host file of a resolved dependency at its archive path. *)
Definition copied (h : Host) (entry : string * string) (call : CpioCall) : Prop :=
  exists body,
    read_file h (fst entry) = Some body /\
    call = call_write_file (snd entry) body o755.

Definition tool_links : list CpioCall :=
  [ call_symlink "busybox" "bin/sh"; call_symlink "busybox" "bin/mount";
    call_symlink "busybox" "bin/umount"; call_symlink "busybox" "bin/switch_root";
    call_symlink "busybox" "bin/sleep"; call_symlink "busybox" "bin/mkdir";
    call_symlink "busybox" "bin/mknod"; call_symlink "busybox" "bin/insmod";
    call_symlink "busybox" "bin/cp"; call_symlink "busybox" "bin/cat" ].

(** The archive path of a module file. *)
Definition modpath (modfile : string) : string :=
  "modules/" ++ os_path.basename modfile.

(** [call] writes the content of a module file at its archive path. *)
Definition installed (h : Host) (modfile : string) (call : CpioCall) : Prop :=
  exists body,
    read_file h modfile = Some body /\
    call = call_write_file (modpath modfile) body o644.

Definition load_all_call (modfiles : list string) : CpioCall :=
  call_write_file "modules/load_all.sh" (load_all_script (map modpath modfiles)) o644.

(** The calls of the module step of [mkinitramfs]. *)
Definition modules_calls (h : Host) (config : Config) (out : list CpioCall) : Prop :=
  match modfiles config with
  | None => out = []
  | Some mods =>
      exists copies,
        Forall2 (installed h) mods copies /\
        out = (call_mkdir "modules" o755 :: copies ++ [load_all_call mods])%list
  end.

Definition payload_call (item : bytes * bytes) : CpioCall :=
  call_write_file (data_dir ++ fst item) (snd item) o755.

Definition modprobe_call : CpioCall :=
  call_write_file "bin/modprobe" modprobe_body o755.

(** ** Sample hosts and configurations *)

Definition busybox_path : string := "/usr/bin/busybox".

(** A host whose busybox is statically linked and which has no other file. *)
Definition host_static : Host := {|
  read_file := fun p => if String.eqb p busybox_path then Some "ELF-static" else None;
  isfile := fun _ => false;
  parse_elf := fun _ => Some {| dynamic := None |}
|}.

Definition config_static : Config := {|
  modfiles := Some [];
  virtme_data := [];
  virtme_init_path := None;
  busybox := Some busybox_path;
  access := "ro"
|}.

Definition elf_dynamic : ELFFile := {|
  dynamic := Some [ {| d_tag := "DT_NEEDED"; needed := "libm.so.6" |};
                    {| d_tag := "DT_SONAME"; needed := EmptyString |};
                    {| d_tag := "DT_NEEDED"; needed := "libc.so.6" |} ]
|}.

Definition files_dynamic : list (string * bytes) :=
  [ (busybox_path, "ELF-dynamic");
    ("/lib64/libm.so.6", "libm");
    ("/usr/lib/libc.so.6", "libc");
    ("/usr/lib64/libc.so.6", "libc-64");
    ("/srv/a.ko", "module-a");
    ("b.ko", "module-b") ].

(** A host whose busybox needs two libraries, both installed, and which
    has two module files. *)
Definition host_dynamic : Host := {|
  read_file := lookup files_dynamic;
  isfile := fun p => match lookup files_dynamic p with Some _ => true | None => false end;
  parse_elf := fun f => if String.eqb f "ELF-dynamic" then Some elf_dynamic else None
|}.

Definition config_full : Config := {|
  modfiles := Some ["/srv/a.ko"; "b.ko"];
  virtme_data := [("tool.sh", "#!/bin/sh"); ("../guesttools/tool", "payload")];
  virtme_init_path := None;
  busybox := Some busybox_path;
  access := "rw"
|}.

(** A host whose busybox needs a library that is in no search directory. *)
Definition host_missing : Host := {|
  read_file := fun p => if String.eqb p busybox_path then Some "ELF-dynamic" else None;
  isfile := fun _ => false;
  parse_elf := fun _ =>
    Some {| dynamic := Some [ {| d_tag := "DT_NEEDED"; needed := "libfoo.so" |} ] |}
|}.

(** ** Paths and names of entries *)

(** The segments of a path, split at its separators. *)
Fixpoint segments_from (seg p : string) : list string :=
  match p with
  | EmptyString => [seg]
  | String c rest =>
      if Ascii.eqb c sep then seg :: segments_from EmptyString rest
      else segments_from (seg ++ String c EmptyString) rest
  end.

(** The directory entries a relative path walks through, from the archive
    root: empty and [.] segments stay in place, [..] goes one level up.
    [reached] is the walk so far, innermost first. *)
Fixpoint walk (reached : list string) (segs : list string) : list string :=
  match segs with
  | [] => rev reached
  | s :: rest =>
      if String.eqb s ".." then walk (tl reached) rest
      else if orb (String.eqb s ".") (String.eqb s EmptyString) then walk reached rest
      else walk (s :: reached) rest
  end.

Definition resolve (p : string) : list string := walk [] (segments_from EmptyString p).

(** The path designates something below [run_virtme/data]. *)
Definition in_data_dir (p : string) : bool :=
  match resolve p with
  | d1 :: d2 :: _ :: _ => andb (String.eqb d1 "run_virtme") (String.eqb d2 "data")
  | _ => false
  end.

(** The archive name of an entry. *)
Definition entry_name (c : CpioCall) : option bytes :=
  match c with
  | call_mkdir name _ => Some name
  | call_symlink _ dst => Some dst
  | call_mkchardev name _ _ => Some name
  | call_write_file name _ _ => Some name
  | call_write_trailer => None
  end.

Definition is_named (name : bytes) (c : CpioCall) : bool :=
  match entry_name c with
  | Some n => String.eqb n name
  | None => false
  end.

(** The reading of the module step that an empty module list skips it:
    no entry named [modules] and none named [modules/load_all.sh]. *)
Definition skips_modules_when_empty (h : Host) (config : Config) : Prop :=
  modfiles config = Some [] ->
  existsb (is_named "modules") (calls (mkinitramfs h config)) = false /\
  existsb (is_named "modules/load_all.sh") (calls (mkinitramfs h config)) = false.

(** ** Text of the scripts *)

(** The number of positions of [s] at which [pat] starts. *)
Fixpoint count_substring (pat s : string) : nat :=
  match s with
  | EmptyString => 0
  | String _ rest =>
      (if String.prefix pat s then 1 else 0) + count_substring pat rest
  end.

Definition mount_prefix : string := "if ! /bin/mount -n -t 9p -o ".
Definition mount_suffix : string :=
  ",version=9p2000.L,trans=virtio,access=any /dev/root /newroot/; then".

Definition with_access (config : Config) (a : string) : Config := {|
  modfiles := modfiles config;
  virtme_data := virtme_data config;
  virtme_init_path := virtme_init_path config;
  busybox := busybox config;
  access := a
|}.

(** ** Further vocabulary *)

(** What [find_needed_paths] holds for a declared name: [None] when no
    search directory has a regular file of that name, and otherwise the
    pair resolved for it. *)
Definition entry_for (h : Host) (name : string) (entry : option (string * string)) : Prop :=
  match entry with
  | None => Forall (fun d => isfile h (os_path.join d name) = false) ld_paths
  | Some e => resolves h name e
  end.


(** A module file the module step can install: it can be read and its
    basename is plain ASCII. *)
Definition installable (h : Host) (modfile : string) : Prop :=
  (exists body, read_file h modfile = Some body) /\
  is_ascii (os_path.basename modfile) = true.

(** A declared library the executable step can install: it resolves, its
    archive path is plain ASCII and the resolved file can be read. *)
Definition installable_library (h : Host) (name : string) : Prop :=
  exists host rel body,
    find_library_path h name = Some (host, rel) /\
    is_ascii rel = true /\
    read_file h host = Some body.

(** The directories, links and device nodes a build can create. *)
Definition special_calls : list CpioCall :=
  (fixed_layout ++ tool_links
   ++ [call_mkdir "bin/real_progs" o755; call_mkdir "modules" o755])%list.

(** What holds of every call of a build: a regular file has mode 0755, or
    mode 0644 and a name that starts with [modules/]; anything else but
    the trailer is one of [special_calls]. *)
Definition entry_ok (c : CpioCall) : Prop :=
  match c with
  | call_write_file name _ mode =>
      mode = o755 \/ (mode = o644 /\ String.prefix "modules/" name = true)
  | call_write_trailer => True
  | _ => In c special_calls
  end.

(** How the shell reads one word: outside quotes a single quote opens a
    single-quoted part and a double quote a double-quoted part; inside
    single quotes every character up to the closing quote stands for
    itself; so does, inside double quotes, every character but the double
    quote, the backslash, the dollar and the backquote, which this reading
    rejects, as it rejects the characters that are special outside quotes.
    [None] when the text is not read as one word this way. *)
Inductive sh_state : Type := Unquoted | Single | Double.

Definition sh_plain (c : ascii) : bool :=
  negb (existsb (Ascii.eqb c)
          (list_ascii_of_string " $`\|&;<>()*?[]#~!{}"
           ++ [ascii_of_nat 34; ascii_of_nat 39; ascii_of_nat 9; ascii_of_nat 10])%list).

Fixpoint sh_read (st : sh_state) (s : string) : option string :=
  match s with
  | EmptyString =>
      match st with
      | Unquoted => Some EmptyString
      | _ => None
      end
  | String c rest =>
      match st with
      | Unquoted =>
          if Ascii.eqb c "'"%char then sh_read Single rest
          else if Ascii.eqb c (ascii_of_nat 34) then sh_read Double rest
          else if sh_plain c then option_map (String c) (sh_read Unquoted rest)
          else None
      | Single =>
          if Ascii.eqb c "'"%char then sh_read Unquoted rest
          else option_map (String c) (sh_read Single rest)
      | Double =>
          if Ascii.eqb c (ascii_of_nat 34) then sh_read Unquoted rest
          else if existsb (Ascii.eqb c) (list_ascii_of_string "\$`") then None
          else option_map (String c) (sh_read Double rest)
      end
  end.

Definition sh_word (s : string) : option string := sh_read Unquoted s.

(** The host of [host_dynamic] with one of its libraries unreadable. *)
Definition host_unreadable : Host := {|
  read_file := fun p => if String.eqb p "/usr/lib/libc.so.6" then None
                        else lookup files_dynamic p;
  isfile := isfile host_dynamic;
  parse_elf := parse_elf host_dynamic
|}.

(** * Properties *)

(** ** The path and text functions on examples *)

Example join_relative : os_path.join "/lib64" "libc.so.6" = "/lib64/libc.so.6".
Proof. reflexivity. Qed.

Example join_absolute : os_path.join "/lib64" "/opt/libx.so" = "/opt/libx.so".
Proof. reflexivity. Qed.

Example basename_nested : os_path.basename "/srv/mods/a.ko" = "a.ko".
Proof. reflexivity. Qed.

Example basename_trailing_sep : os_path.basename "/srv/mods/" = EmptyString.
Proof. reflexivity. Qed.

Example lstrip_sep_several : lstrip_sep "//lib/x" = "lib/x".
Proof. reflexivity. Qed.

Example quote_safe : shlex.quote "modules/a.ko" = "modules/a.ko".
Proof. reflexivity. Qed.

Example quote_space : shlex.quote "modules/a b.ko" = "'modules/a b.ko'".
Proof. reflexivity. Qed.

Example quote_single_quote :
  shlex.quote "it's" = "'it'" ++ dq ++ "'" ++ dq ++ "'s'".
Proof. reflexivity. Qed.

Example format_fields :
  format "a{{b}}{x}-{y}" [("x", "1"); ("y", "{z}")] = inr "a{b}1-{z}".
Proof. reflexivity. Qed.

Example format_missing_key : format "{x}" [] = inl (KeyError "x").
Proof. reflexivity. Qed.

Example format_single_brace : format "a}b" [] = inl ValueError.
Proof. reflexivity. Qed.

(** ** Dependency resolver *)

Lemma lstrip_sep_relative s :
  startswith_sep s = false -> lstrip_sep s = s.
Proof. destruct s as [|c s]; simpl; [reflexivity|]. now intros ->. Qed.

Lemma lstrip_sep_stripped s :
  startswith_sep s = true -> stripped s (lstrip_sep s).
Proof.
  destruct s as [|c s]; [discriminate|]. simpl. intros Hc. rewrite Hc.
  apply Ascii.eqb_eq in Hc. subst c.
  induction s as [|c s IH].
  - split; [reflexivity|]. now exists 0.
  - simpl. destruct (Ascii.eqb c sep) eqn:Hc.
    + apply Ascii.eqb_eq in Hc. subst c.
      destruct IH as (Hs & k & Hk). split; [exact Hs|].
      exists (S k). simpl in *. now rewrite Hk.
    + split; [simpl; exact Hc|]. now exists 0.
Qed.

(** Joined to a search directory, every name gives an absolute path. *)
Lemma join_ld_path_absolute d name :
  In d ld_paths -> startswith_sep (os_path.join d name) = true.
Proof.
  unfold os_path.join. intros Hd.
  destruct (startswith_sep name) eqn:Hn; [exact Hn|].
  simpl in Hd. decompose [or] Hd; subst; try contradiction; reflexivity.
Qed.

(** For a name that is not itself absolute, that path starts with exactly
    one separator. *)
Lemma join_ld_path_relative d name :
  In d ld_paths -> startswith_sep name = false ->
  exists rest, os_path.join d name = String sep rest /\ startswith_sep rest = false.
Proof.
  unfold os_path.join. intros Hd ->.
  simpl in Hd. decompose [or] Hd; subst; try contradiction; simpl; eauto.
Qed.

(** It is the directory, one separator and the name. *)
Lemma join_ld_path_relative_eq d name :
  In d ld_paths -> startswith_sep name = false ->
  os_path.join d name = d ++ String sep name.
Proof.
  unfold os_path.join. intros Hd ->.
  simpl in Hd. decompose [or] Hd; subst; try contradiction; reflexivity.
Qed.

Section Resolver.

Variable h : Host.

Lemma find_needed_paths_eq path elffile :
  is_executable h path elffile ->
  find_needed_paths h path = inr (map (find_library_path h) (declared_needed elffile)).
Proof.
  intros (f & Hopen & Hparse). unfold find_needed_paths, declared_needed.
  rewrite Hopen, Hparse. now destruct (dynamic elffile).
Qed.

Lemma find_needed_paths_length path elffile :
  is_executable h path elffile ->
  exists paths, find_needed_paths h path = inr paths /\
                length paths = length (declared_needed elffile).
Proof.
  intros Hexe. rewrite (find_needed_paths_eq _ _ Hexe).
  eexists. split; [reflexivity|]. now rewrite length_map.
Qed.

Lemma find_library_path_in_none dirs name :
  Forall (fun d => isfile h (os_path.join d name) = false) dirs ->
  find_library_path_in h dirs name = None.
Proof.
  induction 1 as [|d dirs Hd _ IH]; simpl; [reflexivity|].
  now rewrite Hd.
Qed.

Lemma find_library_path_in_some dirs name :
  (exists d, In d dirs /\ isfile h (os_path.join d name) = true) ->
  exists before d after,
    dirs = (before ++ d :: after)%list /\
    isfile h (os_path.join d name) = true /\
    Forall (fun d' => isfile h (os_path.join d' name) = false) before /\
    find_library_path_in h dirs name =
      Some (os_path.join d name, lstrip_sep (os_path.join d name)).
Proof.
  induction dirs as [|d0 dirs IH]; intros (d & Hin & Hd); [destruct Hin|].
  simpl. destruct (isfile h (os_path.join d0 name)) eqn:H0.
  - exists [], d0, dirs. repeat split; auto.
  - destruct Hin as [->|Hin]; [congruence|].
    destruct IH as (before & d1 & after & -> & H1 & Hb & Hf); [now exists d|].
    exists (d0 :: before), d1, after. repeat split; auto.
Qed.

(** C3: an executable without a dynamic section resolves to the empty
    sequence, and that is a normal return, not an exception. *)
Theorem find_needed_paths_no_dynamic path elffile :
  is_executable h path elffile ->
  dynamic elffile = None ->
  find_needed_paths h path = inr [].
Proof.
  intros (f & Hopen & Hparse) Hdyn. unfold find_needed_paths.
  now rewrite Hopen, Hparse, Hdyn.
Qed.

Lemma find_library_path_present name :
  (exists d, In d ld_paths /\ isfile h (os_path.join d name) = true) ->
  exists host rel,
    find_library_path h name = Some (host, rel) /\
    first_match h name host /\
    stripped host rel /\
    (startswith_sep name = false -> host = String sep rel).
Proof.
  intros Hpresent.
  destruct (find_library_path_in_some ld_paths name Hpresent)
    as (before & d & after & Hsplit & Hd & Hbefore & Hfind).
  assert (Hin : In d ld_paths) by (rewrite Hsplit; apply in_elt).
  exists (os_path.join d name), (lstrip_sep (os_path.join d name)).
  split; [exact Hfind|]. split; [|split].
  - now exists before, d, after.
  - apply lstrip_sep_stripped. now apply join_ld_path_absolute.
  - intros Hrel.
    destruct (join_ld_path_relative d name Hin Hrel) as (rest & -> & Hrest).
    simpl. now rewrite (lstrip_sep_relative _ Hrest).
Qed.

Lemma find_library_path_absent name :
  Forall (fun d => isfile h (os_path.join d name) = false) ld_paths ->
  find_library_path h name = None.
Proof. apply find_library_path_in_none. Qed.

Lemma map_find_library_path_present names :
  (forall name, In name names ->
     exists d, In d ld_paths /\ isfile h (os_path.join d name) = true) ->
  exists entries,
    map (find_library_path h) names = map Some entries /\
    Forall2 (resolves h) names entries.
Proof.
  induction names as [|name names IH]; intros Hall.
  - exists []. split; [reflexivity|constructor].
  - destruct (find_library_path_present name) as (host & rel & Hf & H1 & H2 & H3);
      [apply Hall; now left|].
    destruct IH as (entries & Hmap & Hres); [intros n Hn; apply Hall; now right|].
    exists ((host, rel) :: entries). split.
    + simpl. now rewrite Hf, Hmap.
    + constructor; [|exact Hres]. unfold resolves. simpl. auto.
Qed.

(** C4: when every declared name is a regular file in some search
    directory, resolution returns one (host path, archive path) pair per
    declared name, in declaration order; the host path comes from the first
    directory of /lib, /lib64, /usr/lib, /usr/lib64 that holds the name, and
    the archive path is the host path without its leading separator. *)
Theorem find_needed_paths_all_present path elffile :
  is_executable h path elffile ->
  (forall name, In name (declared_needed elffile) ->
     exists d, In d ld_paths /\ isfile h (os_path.join d name) = true) ->
  exists entries,
    find_needed_paths h path = inr (map Some entries) /\
    Forall2 (resolves h) (declared_needed elffile) entries.
Proof.
  intros Hexe Hall. rewrite (find_needed_paths_eq _ _ Hexe).
  destruct (map_find_library_path_present _ Hall) as (entries & -> & Hres).
  now exists entries.
Qed.

(** The sequence returned always has one entry per declared name, and the
    entry of a name found in no search directory is [None]. *)
Lemma find_needed_paths_unresolved path elffile :
  is_executable h path elffile ->
  exists paths,
    find_needed_paths h path = inr paths /\
    Forall2 (fun name entry =>
               Forall (fun d => isfile h (os_path.join d name) = false) ld_paths ->
               entry = None)
            (declared_needed elffile) paths.
Proof.
  intros Hexe. rewrite (find_needed_paths_eq _ _ Hexe).
  eexists. split; [reflexivity|].
  induction (declared_needed elffile) as [|name names IH]; simpl; constructor.
  - apply find_library_path_absent.
  - exact IH.
Qed.

End Resolver.

(** ** The writer computations *)

Arguments bind {A B} m k : simpl never.
Arguments lift {A} r : simpl never.
Arguments emit c : simpl never.

Lemma bind_ret_l {A B} (a : A) (k : A -> Cpio B) : bind (ret a) k = k a.
Proof. unfold bind, ret. now destruct (k a). Qed.

Lemma bind_ret_r {A} (m : Cpio A) : bind m ret = m.
Proof.
  destruct m as [out [e|a]]; unfold bind, ret; [reflexivity|].
  now rewrite app_nil_r.
Qed.

Lemma bind_assoc {A B C} (m : Cpio A) (k : A -> Cpio B) (k' : B -> Cpio C) :
  bind (bind m k) k' = bind m (fun a => bind (k a) k').
Proof.
  destruct m as [out [e|a]]; unfold bind; [reflexivity|].
  destruct (k a) as [out1 [e|b]]; [reflexivity|].
  destruct (k' b) as [out2 r]. now rewrite app_assoc.
Qed.

Lemma bind_raises {A B} (m : Cpio A) (k : A -> Cpio B) e :
  outcome m = inl e -> bind m k = (calls m, inl e).
Proof. destruct m as [out r]; unfold bind; simpl. now intros ->. Qed.


Lemma bind_inr_inv {A B} (m : Cpio A) (k : A -> Cpio B) out b :
  bind m k = (out, inr b) ->
  exists out1 a out2,
    m = (out1, inr a) /\ k a = (out2, inr b) /\ out = (out1 ++ out2)%list.
Proof.
  destruct m as [out1 [e|a]]; unfold bind; [discriminate|].
  destruct (k a) as [out2 r] eqn:Hk. intros [= <- ->].
  now exists out1, a, out2.
Qed.

Lemma bind_inl_inv {A B} (m : Cpio A) (k : A -> Cpio B) e :
  outcome (bind m k) = inl e ->
  (outcome m = inl e /\ calls (bind m k) = calls m) \/
  (exists a, outcome m = inr a /\ outcome (k a) = inl e).
Proof.
  destruct m as [out1 [e1|a]]; unfold bind; simpl.
  - intros [= ->]. now left.
  - destruct (k a) as [out2 r] eqn:Hk. simpl. intros ->.
    right. exists a. now rewrite Hk.
Qed.

Lemma lift_inr_inv {A} (r : result A) out a :
  lift r = (out, inr a) -> r = inr a /\ out = [].
Proof. unfold lift. now intros [= -> <-]. Qed.

Lemma Forall_calls_bind {A B} (P : CpioCall -> Prop) (m : Cpio A) (k : A -> Cpio B) :
  Forall P (calls m) -> (forall a, Forall P (calls (k a))) ->
  Forall P (calls (bind m k)).
Proof.
  destruct m as [out [e|a]]; unfold bind; simpl; intros Hm Hk; [exact Hm|].
  specialize (Hk a). destruct (k a) as [out2 r]. simpl in *.
  apply Forall_app. now split.
Qed.

Lemma Forall_calls_lift {A} (P : CpioCall -> Prop) (r : result A) :
  Forall P (calls (lift r)).
Proof. constructor. Qed.

Lemma Forall_calls_emit (P : CpioCall -> Prop) c :
  P c -> Forall P (calls (emit c)).
Proof. intros Hc. unfold emit. simpl. now constructor. Qed.

Lemma Forall_calls_for_each {A} (P : CpioCall -> Prop) (l : list A) body :
  (forall x, Forall P (calls (body x))) ->
  Forall P (calls (for_each l body)).
Proof.
  intros Hbody. induction l as [|x l IH]; simpl; [constructor|].
  apply Forall_calls_bind; auto.
Qed.

(** A loop whose body makes one call and cannot fail. *)
Lemma for_each_emit {A} (l : list A) (f : A -> CpioCall) :
  for_each l (fun x => emit (f x)) = (map f l, inr tt).
Proof.
  induction l as [|x l IH]; simpl; [reflexivity|]. now rewrite IH.
Qed.

Lemma install_modules_loop_cons h modfile rest paths :
  install_modules_loop h (modfile :: rest) paths =
    (f <- lift (open_rb h (Some modfile)) ;;
     name <- lift (encode_ascii ("modules/" ++ os_path.basename modfile)) ;;
     write_file name f o644 ;;
     install_modules_loop h rest
       (paths ++ [("modules/" ++ os_path.basename modfile)%string])%list).
Proof. reflexivity. Qed.

(** ** The fixed layout *)

Lemma mkinitramfs_layout h config :
  mkinitramfs h config =
    ((fixed_layout ++ calls (after_layout h config))%list,
     outcome (after_layout h config)).
Proof.
  unfold mkinitramfs. fold (after_layout h config).
  now destruct (after_layout h config).
Qed.

Ltac step_calls :=
  repeat first
    [ apply Forall_calls_lift
    | apply Forall_calls_emit; simpl; auto
    | apply Forall_calls_for_each; intros ?
    | apply Forall_calls_bind; [|intros ?]
    | constructor ].

Lemma step_call_copy h src dst mode :
  Forall step_call (calls (copy h src dst mode)).
Proof. unfold copy, write_file. step_calls. Qed.

Lemma step_call_install_busybox h config :
  Forall step_call (calls (install_busybox h config)).
Proof.
  unfold install_busybox.
  apply Forall_calls_bind; [apply step_call_copy|intros _].
  apply Forall_calls_bind; [apply Forall_calls_lift|intros paths].
  apply Forall_calls_bind; [|intros _].
  - apply Forall_calls_for_each.
    intros [[needed_path target_path]|]; unfold install_needed.
    + apply Forall_calls_bind; [apply Forall_calls_lift|intros dst].
      apply step_call_copy.
    + constructor.
  - unfold symlink, mkdir. step_calls.
Qed.

Lemma step_call_install_modprobe :
  Forall step_call (calls install_modprobe).
Proof. unfold install_modprobe, write_file. step_calls. Qed.

Lemma step_call_install_modules_loop h modfiles paths :
  Forall step_call (calls (install_modules_loop h modfiles paths)).
Proof.
  revert paths. induction modfiles as [|modfile rest IH]; intros paths.
  - constructor.
  - rewrite install_modules_loop_cons. unfold write_file. step_calls. apply IH.
Qed.

Lemma step_call_install_modules h modfiles :
  Forall step_call (calls (install_modules h modfiles)).
Proof.
  unfold install_modules, mkdir, write_file.
  apply Forall_calls_bind; [step_calls|intros _].
  apply Forall_calls_bind; [apply step_call_install_modules_loop|intros paths].
  step_calls.
Qed.

Lemma step_call_modules_step h config :
  Forall step_call
    (calls match modfiles config with
           | Some mods => install_modules h mods
           | None => ret tt
           end).
Proof.
  destruct (modfiles config); [apply step_call_install_modules|constructor].
Qed.

Lemma step_call_payload (data : list (bytes * bytes)) :
  Forall step_call
    (calls (for_each data (fun item =>
       let (name, contents) := item in
       write_file (data_dir ++ name) contents o755))).
Proof.
  apply Forall_calls_for_each. intros [name contents].
  unfold write_file. step_calls.
Qed.

Lemma later_call_after_layout h config :
  Forall later_call (calls (after_layout h config)).
Proof.
  assert (Hstep : forall l, Forall step_call l -> Forall later_call l).
  { intros l. apply Forall_impl. intros c Hc. now left. }
  unfold after_layout.
  apply Forall_calls_bind; [apply Hstep, step_call_install_busybox|intros _].
  apply Forall_calls_bind; [apply Hstep, step_call_install_modprobe|intros _].
  apply Forall_calls_bind; [apply Hstep, step_call_modules_step|intros _].
  apply Forall_calls_bind; [apply Hstep, step_call_payload|intros _].
  apply Forall_calls_bind; [apply Forall_calls_lift|intros init].
  apply Forall_calls_bind; [apply Hstep; unfold write_file; step_calls|intros _].
  apply Forall_calls_emit. now right.
Qed.

Lemma fixed_layout_not_later item :
  In item fixed_layout -> ~ later_call item.
Proof.
  unfold fixed_layout. simpl.
  intros Hin Hlater.
  destruct Hlater as [Hstep|Htrailer].
  - repeat (destruct Hin as [<-|Hin];
            [simpl in Hstep; try contradiction;
             try discriminate; destruct Hstep; discriminate|]).
    exact Hin.
  - subst item.
    repeat (destruct Hin as [Hin|Hin]; [discriminate|]). exact Hin.
Qed.

(** C6: whatever the configuration and the host, the archive starts with
    the sixteen fixed entries (eleven directories of mode 0755, the links
    sbin -> bin and lib64 -> lib, the devices dev/null 1:3 0666, dev/kmsg
    1:11 0666 and dev/console 5:1 0660), each of them occurs exactly once in
    the whole archive, and what follows holds no device node and no
    directory or link other than bin/real_progs, modules and the links to
    busybox: regular files and the trailer apart. *)
Theorem fixed_layout_exactly_once h config :
  exists rest,
    calls (mkinitramfs h config) = (fixed_layout ++ rest)%list /\
    Forall later_call rest /\
    Forall (fun item =>
              count_occ CpioCall_eq_dec (calls (mkinitramfs h config)) item = 1)
           fixed_layout.
Proof.
  exists (calls (after_layout h config)).
  pose proof (later_call_after_layout h config) as Hlater.
  assert (Hcalls : calls (mkinitramfs h config) =
                   (fixed_layout ++ calls (after_layout h config))%list)
    by now rewrite mkinitramfs_layout.
  split; [exact Hcalls|]. split; [exact Hlater|].
  apply Forall_forall. intros item Hin.
  rewrite Hcalls, count_occ_app.
  assert (Hrest : count_occ CpioCall_eq_dec (calls (after_layout h config)) item = 0).
  { apply count_occ_not_In. intros Hin'.
    rewrite Forall_forall in Hlater.
    exact (fixed_layout_not_later item Hin (Hlater item Hin')). }
  rewrite Hrest, Nat.add_0_r.
  clear -Hin. revert item Hin. apply Forall_forall.
  repeat constructor.
Qed.

(** C8: when the configured executable cannot be opened, the build raises
    that very exception to its caller; the calls made are the fixed layout
    and nothing after it, so no further step runs and no trailer is
    written. *)
Theorem mkinitramfs_unreadable_executable h config e :
  open_rb h (busybox config) = inl e ->
  mkinitramfs h config = (fixed_layout, inl e).
Proof.
  intros Hopen. rewrite mkinitramfs_layout.
  unfold after_layout, install_busybox, copy. rewrite Hopen. reflexivity.
Qed.

(** ** The calls of a build that returns *)

Lemma encode_ascii_inr s b :
  encode_ascii s = inr b -> b = s /\ is_ascii s = true.
Proof.
  unfold encode_ascii. destruct (is_ascii s); [|discriminate].
  now intros [= <-].
Qed.

Lemma open_rb_inr h p body :
  open_rb h (Some p) = inr body -> read_file h p = Some body.
Proof.
  unfold open_rb. destruct (read_file h p); [|discriminate]. now intros [= ->].
Qed.

Lemma copy_inr_inv h src dst mode out u :
  copy h src dst mode = (out, inr u) ->
  exists body, open_rb h src = inr body /\ out = [call_write_file dst body mode].
Proof.
  unfold copy. intros H.
  apply bind_inr_inv in H as (out1 & body & out2 & Hopen & Hwrite & ->).
  apply lift_inr_inv in Hopen as [Hopen ->].
  injection Hwrite as <-. now exists body.
Qed.

Lemma for_each_install_needed_inr h paths out :
  for_each paths (install_needed h) = (out, inr tt) ->
  exists entries, paths = map Some entries /\ Forall2 (copied h) entries out.
Proof.
  revert out. induction paths as [|entry paths IH]; intros out H.
  - injection H as <-. exists []. split; [reflexivity|constructor].
  - simpl in H.
    apply bind_inr_inv in H as (out1 & [] & out2 & Hentry & Hrest & ->).
    destruct entry as [[needed_path target_path]|]; [|discriminate].
    unfold install_needed in Hentry.
    apply bind_inr_inv in Hentry as (o1 & dst & o2 & Hdst & Hcopy & ->).
    apply lift_inr_inv in Hdst as [Hdst ->].
    apply encode_ascii_inr in Hdst as [-> _].
    apply copy_inr_inv in Hcopy as (body & Hopen & ->).
    apply open_rb_inr in Hopen.
    destruct (IH _ Hrest) as (entries & -> & Hall).
    exists ((needed_path, target_path) :: entries). split; [reflexivity|].
    simpl. constructor; [|exact Hall]. now exists body.
Qed.

Lemma install_tools :
  (for_each busybox_tools (fun tool =>
     dst <- lift (encode_ascii ("bin/" ++ tool)) ;;
     symlink "busybox" dst) ;;
   mkdir "bin/real_progs" o755)
  = ((tool_links ++ [call_mkdir "bin/real_progs" o755])%list, inr tt).
Proof. reflexivity. Qed.

Lemma install_busybox_inr_inv h config out :
  install_busybox h config = (out, inr tt) ->
  exists exe entries copies,
    open_rb h (busybox config) = inr exe /\
    find_needed_paths h (busybox config) = inr (map Some entries) /\
    Forall2 (copied h) entries copies /\
    out = (call_write_file "bin/busybox" exe o755
             :: copies ++ tool_links ++ [call_mkdir "bin/real_progs" o755])%list.
Proof.
  unfold install_busybox. intros H.
  apply bind_inr_inv in H as (out1 & [] & out2 & Hcopy & H & ->).
  apply copy_inr_inv in Hcopy as (exe & Hopen & ->).
  apply bind_inr_inv in H as (o1 & paths & o2 & Hpaths & H & ->).
  apply lift_inr_inv in Hpaths as [Hpaths ->].
  apply bind_inr_inv in H as (o3 & [] & o4 & Hdeps & Htools & ->).
  apply for_each_install_needed_inr in Hdeps as (entries & -> & Hall).
  rewrite install_tools in Htools. injection Htools as <-.
  now exists exe, entries, o3.
Qed.

Lemma install_modules_loop_inr_inv h modfiles paths out paths' :
  install_modules_loop h modfiles paths = (out, inr paths') ->
  paths' = (paths ++ map modpath modfiles)%list /\
  Forall2 (installed h) modfiles out.
Proof.
  revert paths out. induction modfiles as [|modfile rest IH]; intros paths out H.
  - injection H as <- <-. rewrite app_nil_r. split; [reflexivity|constructor].
  - rewrite install_modules_loop_cons in H.
    apply bind_inr_inv in H as (o1 & body & o2 & Hopen & H & ->).
    apply lift_inr_inv in Hopen as [Hopen ->].
    apply open_rb_inr in Hopen.
    apply bind_inr_inv in H as (o3 & name & o4 & Hname & H & ->).
    apply lift_inr_inv in Hname as [Hname ->].
    apply encode_ascii_inr in Hname as [-> _].
    apply bind_inr_inv in H as (o5 & [] & o6 & Hwrite & Hrest & ->).
    injection Hwrite as <-.
    apply IH in Hrest as [-> Hall].
    split; [now rewrite <- app_assoc|].
    simpl. constructor; [|exact Hall]. now exists body.
Qed.

Lemma install_modules_inr_inv h modfiles out :
  install_modules h modfiles = (out, inr tt) ->
  exists copies,
    Forall2 (installed h) modfiles copies /\
    out = (call_mkdir "modules" o755 :: copies ++ [load_all_call modfiles])%list.
Proof.
  unfold install_modules. intros H.
  apply bind_inr_inv in H as (o1 & [] & o2 & Hmkdir & H & ->).
  injection Hmkdir as <-.
  apply bind_inr_inv in H as (o3 & paths & o4 & Hloop & H & ->).
  apply install_modules_loop_inr_inv in Hloop as [-> Hall].
  apply bind_inr_inv in H as (o5 & body & o6 & Hbody & Hwrite & ->).
  apply lift_inr_inv in Hbody as [Hbody ->].
  apply encode_ascii_inr in Hbody as [-> _].
  injection Hwrite as <-.
  now exists o3.
Qed.

Lemma install_payload (data : list (bytes * bytes)) :
  for_each data (fun item =>
    let (name, contents) := item in
    write_file (data_dir ++ name) contents o755)
  = (map payload_call data, inr tt).
Proof.
  induction data as [|[name contents] data IH]; [reflexivity|].
  cbn [for_each]. rewrite IH. reflexivity.
Qed.

(** A build that returns made these calls, in this order. *)
Lemma mkinitramfs_inr_inv h config :
  outcome (mkinitramfs h config) = inr tt ->
  exists exe entries copies modules init,
    open_rb h (busybox config) = inr exe /\
    find_needed_paths h (busybox config) = inr (map Some entries) /\
    Forall2 (copied h) entries copies /\
    modules_calls h config modules /\
    generate_init config = inr init /\
    calls (mkinitramfs h config) =
      (fixed_layout
       ++ call_write_file "bin/busybox" exe o755 :: copies
       ++ tool_links ++ [call_mkdir "bin/real_progs" o755]
       ++ [modprobe_call]
       ++ modules
       ++ map payload_call (virtme_data config)
       ++ [call_write_file "init" init o755; call_write_trailer])%list.
Proof.
  rewrite mkinitramfs_layout. simpl outcome. simpl calls.
  destruct (after_layout h config) as [out r] eqn:H. simpl. intros ->.
  unfold after_layout in H.
  apply bind_inr_inv in H as (o1 & [] & o2 & Hbb & H & ->).
  apply install_busybox_inr_inv in Hbb as (exe & entries & copies & Hexe & Hdeps & Hall & ->).
  apply bind_inr_inv in H as (o3 & [] & o4 & Hmodprobe & H & ->).
  injection Hmodprobe as <-.
  apply bind_inr_inv in H as (modules & [] & o6 & Hmodules & H & ->).
  apply bind_inr_inv in H as (o7 & [] & o8 & Hdata & H & ->).
  rewrite install_payload in Hdata. injection Hdata as <-.
  apply bind_inr_inv in H as (o9 & init & o10 & Hinit & H & ->).
  apply lift_inr_inv in Hinit as [Hinit ->].
  injection H as <-.
  exists exe, entries, copies, modules, init.
  repeat (split; [assumption|]).
  split; [|split; [exact Hinit|]].
  - unfold modules_calls. destruct (modfiles config) as [mods|].
    + now apply install_modules_inr_inv.
    + now injection Hmodules as <-.
  - simpl. rewrite <- !app_assoc. reflexivity.
Qed.

Lemma step_call_not_trailer l :
  Forall step_call l -> ~ In call_write_trailer l.
Proof.
  intros Hall Hin. rewrite Forall_forall in Hall. exact (Hall _ Hin).
Qed.

Lemma copied_step_call h entries copies :
  Forall2 (copied h) entries copies -> Forall step_call copies.
Proof.
  induction 1 as [|entry call entries copies (body & _ & ->) _ IH];
    constructor; [exact I|exact IH].
Qed.

Lemma installed_step_call h modfiles copies :
  Forall2 (installed h) modfiles copies -> Forall step_call copies.
Proof.
  induction 1 as [|modfile call modfiles copies (body & _ & ->) _ IH];
    constructor; [exact I|exact IH].
Qed.

Lemma modules_calls_step_call h config out :
  modules_calls h config out -> Forall step_call out.
Proof.
  unfold modules_calls. destruct (modfiles config) as [mods|].
  - intros (copies & Hall & ->). constructor; [now right|].
    apply Forall_app. split; [now apply installed_step_call with h mods|].
    repeat constructor.
  - intros ->. constructor.
Qed.

Lemma fixed_layout_no_trailer : ~ In call_write_trailer fixed_layout.
Proof.
  unfold fixed_layout. simpl. intros H.
  repeat (destruct H as [H|H]; [discriminate|]). exact H.
Qed.

(** A computation that raises after calls of the steps never reached the
    trailer. *)
Lemma raises_bind {A B} (m : Cpio A) (k : A -> Cpio B) :
  Forall step_call (calls m) ->
  (forall a e, outcome (k a) = inl e -> Forall step_call (calls (k a))) ->
  forall e, outcome (bind m k) = inl e -> Forall step_call (calls (bind m k)).
Proof.
  intros Hm Hk e. destruct m as [out [e'|a]]; unfold bind; simpl in *.
  - intros _. exact Hm.
  - specialize (Hk a). destruct (k a) as [out2 r]. simpl in *.
    intros ->. apply Forall_app. split; [exact Hm|]. now apply Hk with e.
Qed.

Lemma after_layout_raises h config e :
  outcome (after_layout h config) = inl e ->
  Forall step_call (calls (after_layout h config)).
Proof.
  unfold after_layout. revert e.
  apply raises_bind; [apply step_call_install_busybox|intros _].
  apply raises_bind; [apply step_call_install_modprobe|intros _].
  apply raises_bind; [apply step_call_modules_step|intros _].
  apply raises_bind; [apply step_call_payload|intros _].
  apply raises_bind; [apply Forall_calls_lift|intros init].
  intros e. discriminate.
Qed.

(** C9: a build that returns made its calls in this order: the fixed
    layout (directories, links, device nodes); the executable, its resolved
    dependencies, the tool links and bin/real_progs; the modprobe stub; the
    module step when the configuration has a module list; the payload
    entries; the init script; and then, as its last call and only once,
    the trailer.  A build that raises never calls the trailer. *)
Theorem mkinitramfs_call_order h config :
  (outcome (mkinitramfs h config) = inr tt ->
   exists exe entries copies modules init,
     open_rb h (busybox config) = inr exe /\
     find_needed_paths h (busybox config) = inr (map Some entries) /\
     Forall2 (copied h) entries copies /\
     modules_calls h config modules /\
     generate_init config = inr init /\
     calls (mkinitramfs h config) =
       (fixed_layout
        ++ (call_write_file "bin/busybox" exe o755 :: copies
            ++ tool_links ++ [call_mkdir "bin/real_progs" o755])
        ++ [modprobe_call]
        ++ modules
        ++ map payload_call (virtme_data config)
        ++ [call_write_file "init" init o755]
        ++ [call_write_trailer])%list /\
     count_occ CpioCall_eq_dec (calls (mkinitramfs h config)) call_write_trailer = 1)
  /\
  (forall e, outcome (mkinitramfs h config) = inl e ->
             ~ In call_write_trailer (calls (mkinitramfs h config))).
Proof.
  split.
  - intros Hok.
    destruct (mkinitramfs_inr_inv h config Hok)
      as (exe & entries & copies & modules & init
          & Hexe & Hdeps & Hcopies & Hmodules & Hinit & Hcalls).
    exists exe, entries, copies, modules, init.
    repeat (split; [assumption|]).
    pose (before :=
      (fixed_layout
       ++ (call_write_file "bin/busybox" exe o755 :: copies
           ++ tool_links ++ [call_mkdir "bin/real_progs" o755])
       ++ [modprobe_call]
       ++ modules
       ++ map payload_call (virtme_data config)
       ++ [call_write_file "init" init o755])%list).
    assert (Hshape : calls (mkinitramfs h config)
                     = (before ++ [call_write_trailer])%list).
    { rewrite Hcalls. unfold before. simpl. rewrite <- !app_assoc. simpl.
      rewrite <- !app_assoc. reflexivity. }
    assert (Hnot : ~ In call_write_trailer before).
    { unfold before. intros Hin. apply in_app_or in Hin as [Hin|Hin];
        [exact (fixed_layout_no_trailer Hin)|].
      revert Hin. apply step_call_not_trailer.
      repeat (apply Forall_app; split).
      - constructor; [exact I|]. apply Forall_app. split.
        + now apply copied_step_call with h entries.
        + repeat constructor.
      - repeat constructor.
      - now apply modules_calls_step_call with h config.
      - apply Forall_forall. intros c Hc.
        apply in_map_iff in Hc as (item & <- & _). exact I.
      - repeat constructor. }
    split.
    + rewrite Hshape. unfold before. rewrite <- !app_assoc. reflexivity.
    + rewrite Hshape, count_occ_app.
      rewrite (proj1 (count_occ_not_In CpioCall_eq_dec _ _) Hnot). reflexivity.
  - intros e He. rewrite mkinitramfs_layout in *.
    unfold outcome, calls in *. cbn [fst snd] in *.
    intros Hin. apply in_app_or in Hin as [Hin|Hin];
      [exact (fixed_layout_no_trailer Hin)|].
    revert Hin. apply step_call_not_trailer. now apply after_layout_raises with e.
Qed.

(** ** Payload *)

(** C10: a build that returns has written, for every pair of the payload
    mapping, an entry of mode 0755 with exactly the given content at the
    data directory prefix followed by the name as it is; nothing checks the
    name, and a name with a parent segment gives an entry whose path is
    outside the data directory. *)
Theorem payload_written_verbatim :
  (forall h config name contents,
     outcome (mkinitramfs h config) = inr tt ->
     In (name, contents) (virtme_data config) ->
     In (call_write_file ("run_virtme/data/" ++ name) contents o755)
        (calls (mkinitramfs h config)))
  /\
  (exists h config name contents,
     outcome (mkinitramfs h config) = inr tt /\
     In (name, contents) (virtme_data config) /\
     In (call_write_file ("run_virtme/data/" ++ name) contents o755)
        (calls (mkinitramfs h config)) /\
     in_data_dir ("run_virtme/data/" ++ name) = false).
Proof.
  assert (Hall : forall h config name contents,
     outcome (mkinitramfs h config) = inr tt ->
     In (name, contents) (virtme_data config) ->
     In (call_write_file ("run_virtme/data/" ++ name) contents o755)
        (calls (mkinitramfs h config))).
  { intros h config name contents Hok Hin.
    destruct (mkinitramfs_inr_inv h config Hok)
      as (exe & entries & copies & modules & init & _ & _ & _ & _ & _ & ->).
    apply in_or_app. right. right.
    apply in_or_app. right.
    apply in_or_app. right.
    apply in_or_app. right.
    apply in_or_app. right.
    apply in_or_app. right.
    apply in_or_app. left.
    apply in_map_iff. now exists (name, contents). }
  split; [exact Hall|].
  exists host_dynamic, config_full, "../guesttools/tool", "payload".
  assert (Hok : outcome (mkinitramfs host_dynamic config_full) = inr tt)
    by (vm_compute; reflexivity).
  assert (Hin : In ("../guesttools/tool", "payload") (virtme_data config_full))
    by (right; left; reflexivity).
  split; [exact Hok|]. split; [exact Hin|]. split; [|reflexivity].
  now apply Hall.
Qed.

Lemma payload_written_verbatim_witness :
  outcome (mkinitramfs host_dynamic config_full) = inr tt /\
  In ("tool.sh", "#!/bin/sh") (virtme_data config_full) /\
  In (call_write_file "run_virtme/data/tool.sh" "#!/bin/sh" o755)
     (calls (mkinitramfs host_dynamic config_full)).
Proof.
  split; [vm_compute; reflexivity|].
  split; [left; reflexivity|].
  apply (proj1 payload_written_verbatim host_dynamic config_full "tool.sh" "#!/bin/sh").
  - vm_compute. reflexivity.
  - left. reflexivity.
Defined.

Example in_data_dir_plain : in_data_dir "run_virtme/data/tool.sh" = true.
Proof. reflexivity. Qed.

Example in_data_dir_subdir : in_data_dir "run_virtme/data/a/b" = true.
Proof. reflexivity. Qed.

Example in_data_dir_parent : resolve "run_virtme/data/../guesttools/tool"
                             = ["run_virtme"; "guesttools"; "tool"].
Proof. reflexivity. Qed.

(** ** Modules *)

(** C2 as stated fails: the guard of [mkinitramfs] tests [modfiles]
    against [None], and an empty list passes it. *)
Lemma empty_modfiles_not_skipped :
  ~ skips_modules_when_empty host_static config_static.
Proof.
  intros H. destruct (H eq_refl) as [Hdir _].
  vm_compute in Hdir. discriminate Hdir.
Qed.

Lemma copied_not_mkdir h entries copies name mode :
  Forall2 (copied h) entries copies -> ~ In (call_mkdir name mode) copies.
Proof.
  induction 1 as [|entry call entries copies (body & _ & ->) _ IH]; simpl.
  - tauto.
  - intros [H|H]; [discriminate|tauto].
Qed.

(** C2 (amended): with an empty module list the module step still runs:
    a build that returns has created the directory modules (0755) and,
    right after it, written modules/load_all.sh (0644) holding the logging
    helper and nothing else.  The step is skipped, and no modules directory
    created, when the configuration has no module list at all. *)
Theorem empty_modfiles_module_step h config :
  outcome (mkinitramfs h config) = inr tt ->
  (modfiles config = Some [] ->
   exists before after,
     calls (mkinitramfs h config) =
       (before
        ++ [call_mkdir "modules" o755;
            call_write_file "modules/load_all.sh" _LOGFUNC o644]
        ++ after)%list)
  /\
  (modfiles config = None ->
   forall mode, ~ In (call_mkdir "modules" mode) (calls (mkinitramfs h config))).
Proof.
  intros Hok.
  destruct (mkinitramfs_inr_inv h config Hok)
    as (exe & entries & copies & modules & init & _ & _ & Hcopies & Hmodules & _ & ->).
  unfold modules_calls in Hmodules. split; intros Hmods; rewrite Hmods in Hmodules.
  - destruct Hmodules as (mcopies & Hnone & ->). inversion Hnone; subst.
    exists (fixed_layout
            ++ call_write_file "bin/busybox" exe o755 :: copies
            ++ tool_links ++ [call_mkdir "bin/real_progs" o755]
            ++ [modprobe_call])%list.
    exists (map payload_call (virtme_data config)
            ++ [call_write_file "init" init o755; call_write_trailer])%list.
    rewrite <- app_assoc. f_equal. cbn [app]. f_equal.
    rewrite <- app_assoc. reflexivity.
  - subst modules. intros mode Hin.
    apply in_app_or in Hin as [Hin|Hin].
    { unfold fixed_layout in Hin. simpl in Hin.
      repeat (destruct Hin as [Hin|Hin]; [discriminate|]). exact Hin. }
    destruct Hin as [Hin|Hin]; [discriminate|].
    apply in_app_or in Hin as [Hin|Hin];
      [exact (copied_not_mkdir h entries copies _ _ Hcopies Hin)|].
    apply in_app_or in Hin as [Hin|Hin].
    { unfold tool_links in Hin. simpl in Hin.
      repeat (destruct Hin as [Hin|Hin]; [discriminate|]). exact Hin. }
    simpl in Hin. destruct Hin as [Hin|[Hin|Hin]]; try discriminate.
    apply in_app_or in Hin as [Hin|Hin].
    + apply in_map_iff in Hin as (item & Hitem & _). discriminate.
    + simpl in Hin. destruct Hin as [Hin|[Hin|Hin]]; try discriminate. exact Hin.
Qed.

Lemma empty_modfiles_module_step_witness :
  outcome (mkinitramfs host_static config_static) = inr tt /\
  modfiles config_static = Some [] /\
  exists before after,
    calls (mkinitramfs host_static config_static) =
      (before
       ++ [call_mkdir "modules" o755;
           call_write_file "modules/load_all.sh" _LOGFUNC o644]
       ++ after)%list.
Proof.
  split; [vm_compute; reflexivity|]. split; [reflexivity|].
  apply (proj1 (empty_modfiles_module_step host_static config_static
                  ltac:(vm_compute; reflexivity))).
  reflexivity.
Defined.

(** C7: for the module files a.ko and b.ko (whatever directories they are
    in), the module step creates modules, copies both files in that order
    and writes modules/load_all.sh: the logging helper, then one line per
    module, a.ko before b.ko, that logs loading <name>... and runs insmod
    on the archive path of the module, quoted for the shell (these two paths
    need no quoting).  The script has exactly two loading lines and two
    insmod invocations. *)
Theorem install_modules_two_modules h file_a file_b body_a body_b :
  os_path.basename file_a = "a.ko" ->
  os_path.basename file_b = "b.ko" ->
  read_file h file_a = Some body_a ->
  read_file h file_b = Some body_b ->
  let script :=
    _LOGFUNC
    ++ "log 'loading a.ko...'; insmod modules/a.ko" ++ nl
    ++ "log 'loading b.ko...'; insmod modules/b.ko" in
  install_modules h [file_a; file_b] =
    ([ call_mkdir "modules" o755;
       call_write_file "modules/a.ko" body_a o644;
       call_write_file "modules/b.ko" body_b o644;
       call_write_file "modules/load_all.sh" script o644 ], inr tt)
  /\ shlex.quote "modules/a.ko" = "modules/a.ko"
  /\ shlex.quote "modules/b.ko" = "modules/b.ko"
  /\ count_substring "log 'loading " script = 2
  /\ count_substring "insmod " script = 2.
Proof.
  intros Ha Hb Hbody_a Hbody_b script.
  split; [|repeat split; reflexivity].
  unfold install_modules.
  rewrite !install_modules_loop_cons. unfold open_rb.
  rewrite Ha, Hb, Hbody_a, Hbody_b. reflexivity.
Qed.

Lemma install_modules_two_modules_witness :
  calls (install_modules host_dynamic ["/srv/a.ko"; "b.ko"]) =
    [ call_mkdir "modules" o755;
      call_write_file "modules/a.ko" "module-a" o644;
      call_write_file "modules/b.ko" "module-b" o644;
      call_write_file "modules/load_all.sh"
        (_LOGFUNC
         ++ "log 'loading a.ko...'; insmod modules/a.ko" ++ nl
         ++ "log 'loading b.ko...'; insmod modules/b.ko") o644 ].
Proof.
  rewrite (proj1 (install_modules_two_modules host_dynamic "/srv/a.ko" "b.ko"
                    "module-a" "module-b" eq_refl eq_refl eq_refl eq_refl)).
  reflexivity.
Defined.

(** ** Init script *)

(** C5: the init script is a fixed text around one occurrence of the
    access mode of the configuration, which stands unchanged between
    [-t 9p -o ] and [,version=9p2000.L,...] in the only 9p mount command of
    the script.  A read-write configuration gives [-o rw,version=...], the
    default configuration [-o ro,version=...]. *)
Theorem generate_init_access :
  exists head tail,
    (forall config,
       generate_init config =
         inr (head ++ mount_prefix ++ access config ++ mount_suffix ++ tail)) /\
    count_substring "9p" head = 0 /\
    count_substring "9p" tail = 0 /\
    (forall config,
       generate_init (with_access config "rw") =
         inr (head ++ "if ! /bin/mount -n -t 9p -o rw,version=9p2000.L,trans=virtio,access=any /dev/root /newroot/; then" ++ tail)) /\
    generate_init Config_init =
      inr (head ++ "if ! /bin/mount -n -t 9p -o ro,version=9p2000.L,trans=virtio,access=any /dev/root /newroot/; then" ++ tail).
Proof.
  pose (rendered :=
          match format _INIT [("logfunc", _LOGFUNC); ("access", EmptyString)] with
          | inr s => s
          | inl _ => EmptyString
          end).
  pose (at_mount :=
          match String.index 0 (mount_prefix ++ mount_suffix) rendered with
          | Some n => n
          | None => 0
          end).
  exists (String.substring 0 at_mount rendered).
  exists (String.substring (at_mount + String.length (mount_prefix ++ mount_suffix))
            (String.length rendered) rendered).
  split; [|split; [|split; [|split]]].
  - intros config. unfold generate_init, encode_utf8.
    generalize (access config). intros a. vm_compute. reflexivity.
  - vm_compute. reflexivity.
  - vm_compute. reflexivity.
  - intros config. vm_compute. reflexivity.
  - vm_compute. reflexivity.
Qed.

(** ** Evaluation on the sample hosts *)

Lemma find_needed_paths_no_dynamic_witness :
  is_executable host_static (Some busybox_path) {| dynamic := None |} /\
  find_needed_paths host_static (Some busybox_path) = inr [].
Proof.
  assert (Hexe : is_executable host_static (Some busybox_path) {| dynamic := None |})
    by (exists "ELF-static"; split; reflexivity).
  split; [exact Hexe|].
  exact (find_needed_paths_no_dynamic host_static (Some busybox_path)
           {| dynamic := None |} Hexe eq_refl).
Defined.

Lemma find_needed_paths_all_present_witness :
  declared_needed elf_dynamic = ["libm.so.6"; "libc.so.6"] /\
  exists entries,
    find_needed_paths host_dynamic (Some busybox_path) = inr (map Some entries) /\
    Forall2 (resolves host_dynamic) ["libm.so.6"; "libc.so.6"] entries.
Proof.
  split; [reflexivity|].
  apply (find_needed_paths_all_present host_dynamic (Some busybox_path) elf_dynamic).
  - exists "ELF-dynamic". split; reflexivity.
  - intros name [<-|[<-|[]]].
    + exists "/lib64". split; [simpl; tauto|reflexivity].
    + exists "/usr/lib". split; [simpl; tauto|reflexivity].
Defined.

Example find_needed_paths_dynamic :
  find_needed_paths host_dynamic (Some busybox_path) =
    inr [ Some ("/lib64/libm.so.6", "lib64/libm.so.6");
          Some ("/usr/lib/libc.so.6", "usr/lib/libc.so.6") ].
Proof. reflexivity. Qed.

(** C1: for a needed library that is a regular file in no search
    directory, [find_needed_paths] raises nothing, but it does not drop the
    name: the sequence it returns has an entry at the position of the
    name, the value [None] that [find_library_path] returns by falling off
    its loop.  [install_busybox] then fails to unpack that entry, and the
    build stops with [TypeError] after writing [bin/busybox]. *)
Theorem find_needed_paths_missing_library :
  Forall (fun d => isfile host_missing (os_path.join d "libfoo.so") = false) ld_paths /\
  find_needed_paths host_missing (Some busybox_path) = inr [None] /\
  mkinitramfs host_missing config_static =
    ((fixed_layout ++ [call_write_file "bin/busybox" "ELF-dynamic" o755])%list,
     inl TypeError).
Proof.
  split; [repeat constructor|]. split; reflexivity.
Qed.

Lemma mkinitramfs_unreadable_executable_witness :
  open_rb host_static (busybox Config_init) = inl TypeError /\
  open_rb host_static (Some "/bin/busybox") = inl (OSError "/bin/busybox") /\
  mkinitramfs host_static Config_init = (fixed_layout, inl TypeError) /\
  mkinitramfs host_static
      {| modfiles := None; virtme_data := []; virtme_init_path := None;
         busybox := Some "/bin/busybox"; access := "rw" |}
    = (fixed_layout, inl (OSError "/bin/busybox")).
Proof.
  split; [reflexivity|]. split; [reflexivity|]. split.
  - apply (mkinitramfs_unreadable_executable host_static Config_init TypeError).
    reflexivity.
  - apply mkinitramfs_unreadable_executable. reflexivity.
Defined.

Lemma mkinitramfs_call_order_witness :
  outcome (mkinitramfs host_dynamic config_full) = inr tt /\
  exists exe entries copies modules init,
    open_rb host_dynamic (busybox config_full) = inr exe /\
    find_needed_paths host_dynamic (busybox config_full) = inr (map Some entries) /\
    Forall2 (copied host_dynamic) entries copies /\
    modules_calls host_dynamic config_full modules /\
    generate_init config_full = inr init /\
    calls (mkinitramfs host_dynamic config_full) =
      (fixed_layout
       ++ (call_write_file "bin/busybox" exe o755 :: copies
           ++ tool_links ++ [call_mkdir "bin/real_progs" o755])
       ++ [modprobe_call]
       ++ modules
       ++ map payload_call (virtme_data config_full)
       ++ [call_write_file "init" init o755]
       ++ [call_write_trailer])%list /\
    count_occ CpioCall_eq_dec (calls (mkinitramfs host_dynamic config_full))
      call_write_trailer = 1.
Proof.
  split; [vm_compute; reflexivity|].
  apply (proj1 (mkinitramfs_call_order host_dynamic config_full)).
  vm_compute. reflexivity.
Defined.

Example mkinitramfs_full_names :
  map entry_name (calls (mkinitramfs host_dynamic config_full)) =
    (map Some
      [ "lib"; "bin"; "var"; "etc"; "newroot"; "dev"; "proc"; "tmproot";
        "run_virtme"; "run_virtme/data"; "run_virtme/guesttools";
        "sbin"; "lib64"; "dev/null"; "dev/kmsg"; "dev/console";
        "bin/busybox"; "lib64/libm.so.6"; "usr/lib/libc.so.6";
        "bin/sh"; "bin/mount"; "bin/umount"; "bin/switch_root"; "bin/sleep";
        "bin/mkdir"; "bin/mknod"; "bin/insmod"; "bin/cp"; "bin/cat";
        "bin/real_progs"; "bin/modprobe";
        "modules"; "modules/a.ko"; "modules/b.ko"; "modules/load_all.sh";
        "run_virtme/data/tool.sh"; "run_virtme/data/../guesttools/tool";
        "init" ]
    ++ [None])%list.
Proof. vm_compute. reflexivity. Qed.

(** * Further properties *)

(** ** Resolution of one name *)

Lemma lstrip_sep_no_leading s : startswith_sep (lstrip_sep s) = false.
Proof.
  induction s as [|c s IH]; simpl; [reflexivity|].
  destruct (Ascii.eqb c sep) eqn:Hc; [exact IH|]. simpl. exact Hc.
Qed.

Lemma find_library_path_in_inv h dirs name host rel :
  find_library_path_in h dirs name = Some (host, rel) ->
  rel = lstrip_sep host /\
  exists before d after,
    dirs = (before ++ d :: after)%list /\
    host = os_path.join d name /\
    isfile h host = true /\
    Forall (fun d' => isfile h (os_path.join d' name) = false) before.
Proof.
  induction dirs as [|d0 dirs IH]; simpl; [discriminate|].
  destruct (isfile h (os_path.join d0 name)) eqn:H0.
  - intros [= <- <-]. split; [reflexivity|].
    exists [], d0, dirs. repeat split; auto.
  - intros H. destruct (IH H) as (Hrel & before & d & after & -> & Hhost & Hfile & Hb).
    split; [exact Hrel|].
    exists (d0 :: before), d, after. repeat split; auto.
Qed.

Lemma find_library_path_in_none_inv h dirs name :
  find_library_path_in h dirs name = None ->
  Forall (fun d => isfile h (os_path.join d name) = false) dirs.
Proof.
  induction dirs as [|d0 dirs IH]; simpl; [constructor|].
  destruct (isfile h (os_path.join d0 name)) eqn:H0; [discriminate|].
  intros H. constructor; auto.
Qed.

(** X1: whatever [find_library_path] returns for a name is sound: the host
    path is the name joined to the first search directory that has a
    regular file for it, it is absolute and is a regular file; the archive
    path is the host path stripped of its leading separators and never
    starts with one. *)
Theorem find_library_path_sound h name host rel :
  find_library_path h name = Some (host, rel) ->
  first_match h name host /\
  isfile h host = true /\
  startswith_sep host = true /\
  rel = lstrip_sep host /\
  startswith_sep rel = false.
Proof.
  intros H. apply find_library_path_in_inv in H
    as (-> & before & d & after & Hsplit & -> & Hfile & Hbefore).
  assert (Hin : In d ld_paths) by (rewrite Hsplit; apply in_elt).
  split; [now exists before, d, after|].
  split; [exact Hfile|].
  split; [now apply join_ld_path_absolute|].
  split; [reflexivity|apply lstrip_sep_no_leading].
Qed.

Lemma find_library_path_sound_witness :
  find_library_path host_dynamic "libc.so.6"
    = Some ("/usr/lib/libc.so.6", "usr/lib/libc.so.6") /\
  first_match host_dynamic "libc.so.6" "/usr/lib/libc.so.6" /\
  isfile host_dynamic "/usr/lib/libc.so.6" = true.
Proof.
  split; [reflexivity|].
  destruct (find_library_path_sound host_dynamic "libc.so.6"
              "/usr/lib/libc.so.6" "usr/lib/libc.so.6" eq_refl)
    as (Hfirst & Hfile & _).
  split; [exact Hfirst|exact Hfile].
Defined.

(** X2: [find_library_path] returns [None] exactly when none of the four
    search directories has a regular file of that name; it never raises. *)
Theorem find_library_path_none_iff h name :
  find_library_path h name = None <->
  Forall (fun d => isfile h (os_path.join d name) = false) ld_paths.
Proof.
  split.
  - apply find_library_path_in_none_inv.
  - apply find_library_path_in_none.
Qed.

Lemma find_library_path_none_iff_witness :
  find_library_path host_missing "libfoo.so" = None /\
  Forall (fun d => isfile host_missing (os_path.join d "libfoo.so") = false) ld_paths.
Proof.
  split; [reflexivity|].
  apply (proj1 (find_library_path_none_iff host_missing "libfoo.so")).
  reflexivity.
Defined.

Lemma find_library_path_entry_for h name :
  entry_for h name (find_library_path h name).
Proof.
  destruct (find_library_path h name) as [[host rel]|] eqn:H; simpl.
  - pose proof (find_library_path_in_inv h ld_paths name host rel H)
      as (-> & before & d & after & Hsplit & -> & Hfile & Hbefore).
    assert (Hin : In d ld_paths) by (rewrite Hsplit; apply in_elt).
    unfold resolves. simpl. split; [now exists before, d, after|]. split.
    + apply lstrip_sep_stripped. now apply join_ld_path_absolute.
    + intros Hrel.
      destruct (join_ld_path_relative d name Hin Hrel) as (rest & -> & Hrest).
      simpl. now rewrite (lstrip_sep_relative _ Hrest).
  - now apply find_library_path_in_none_inv.
Qed.

(** ** Resolution of an executable *)

(** X3: for an executable that can be opened and is an ELF image,
    [find_needed_paths] always returns, whichever libraries the host has:
    the sequence has exactly one entry per declared name, in declaration
    order, and the entry of a name is [None] when no search directory
    holds the name and the pair resolved for it otherwise. *)
Theorem find_needed_paths_entries h path elffile :
  is_executable h path elffile ->
  exists paths,
    find_needed_paths h path = inr paths /\
    length paths = length (declared_needed elffile) /\
    Forall2 (entry_for h) (declared_needed elffile) paths.
Proof.
  intros Hexe. rewrite (find_needed_paths_eq h _ _ Hexe).
  eexists. split; [reflexivity|]. split; [apply length_map|].
  induction (declared_needed elffile) as [|name names IH]; simpl; constructor.
  - apply find_library_path_entry_for.
  - exact IH.
Qed.

Lemma find_needed_paths_entries_witness :
  is_executable host_missing (Some busybox_path)
    {| dynamic := Some [ {| d_tag := "DT_NEEDED"; needed := "libfoo.so" |} ] |} /\
  exists paths,
    find_needed_paths host_missing (Some busybox_path) = inr paths /\
    length paths = 1 /\
    Forall2 (entry_for host_missing) ["libfoo.so"] paths.
Proof.
  assert (Hexe : is_executable host_missing (Some busybox_path)
    {| dynamic := Some [ {| d_tag := "DT_NEEDED"; needed := "libfoo.so" |} ] |})
    by (exists "ELF-dynamic"; split; reflexivity).
  split; [exact Hexe|].
  exact (find_needed_paths_entries host_missing (Some busybox_path) _ Hexe).
Defined.



(** ** The executable step *)

Lemma after_layout_not_elf h config exe :
  open_rb h (busybox config) = inr exe ->
  parse_elf h exe = None ->
  after_layout h config = ([call_write_file "bin/busybox" exe o755], inl ELFError).
Proof.
  intros Hopen Hparse.
  unfold after_layout, install_busybox, copy, find_needed_paths.
  rewrite Hopen, Hparse. reflexivity.
Qed.

(** X5: the executable is written before its metadata is read: when it
    can be opened but is not an ELF image (a script, say), the build raises
    [ELFError] with the fixed layout and [bin/busybox], holding the content
    of that file, already written, and nothing after them. *)
Theorem mkinitramfs_not_elf h config exe :
  open_rb h (busybox config) = inr exe ->
  parse_elf h exe = None ->
  mkinitramfs h config =
    ((fixed_layout ++ [call_write_file "bin/busybox" exe o755])%list, inl ELFError).
Proof.
  intros Hopen Hparse. rewrite mkinitramfs_layout.
  now rewrite (after_layout_not_elf h config exe Hopen Hparse).
Qed.

Lemma mkinitramfs_not_elf_witness :
  open_rb host_dynamic (Some "b.ko") = inr "module-b" /\
  parse_elf host_dynamic "module-b" = None /\
  mkinitramfs host_dynamic
      {| modfiles := None; virtme_data := []; virtme_init_path := None;
         busybox := Some "b.ko"; access := "ro" |}
    = ((fixed_layout ++ [call_write_file "bin/busybox" "module-b" o755])%list,
       inl ELFError).
Proof.
  split; [reflexivity|]. split; [reflexivity|].
  apply mkinitramfs_not_elf; reflexivity.
Defined.

(** X6: a build whose executable declares a library that is in no search
    directory never returns: the entry resolved for that name is [None],
    which the loop of [install_busybox] cannot unpack.  The trailer is then
    never written. *)
Theorem mkinitramfs_missing_library h config elffile name :
  is_executable h (busybox config) elffile ->
  In name (declared_needed elffile) ->
  Forall (fun d => isfile h (os_path.join d name) = false) ld_paths ->
  (exists e, outcome (mkinitramfs h config) = inl e) /\
  ~ In call_write_trailer (calls (mkinitramfs h config)).
Proof.
  intros Hexe Hname Habsent.
  assert (Hraises : exists e, outcome (mkinitramfs h config) = inl e).
  { destruct (outcome (mkinitramfs h config)) as [e|[]] eqn:Hout; [now exists e|].
    exfalso.
    destruct (mkinitramfs_inr_inv h config Hout)
      as (exe & entries & copies & modules & init & _ & Hdeps & _).
    rewrite (find_needed_paths_eq h _ _ Hexe) in Hdeps.
    injection Hdeps as Hdeps.
    assert (Hnone : In None (map (find_library_path h) (declared_needed elffile))).
    { apply in_map_iff. exists name. split; [|exact Hname].
      now apply find_library_path_absent. }
    rewrite Hdeps in Hnone. apply in_map_iff in Hnone as (entry & Hentry & _).
    discriminate Hentry. }
  split; [exact Hraises|].
  destruct Hraises as [e He].
  rewrite mkinitramfs_layout in *. unfold outcome, calls in *. cbn [fst snd] in *.
  intros Hin. apply in_app_or in Hin as [Hin|Hin];
    [exact (fixed_layout_no_trailer Hin)|].
  revert Hin. apply step_call_not_trailer. now apply after_layout_raises with e.
Qed.

Lemma mkinitramfs_missing_library_witness :
  In "libfoo.so"
     (declared_needed
        {| dynamic := Some [ {| d_tag := "DT_NEEDED"; needed := "libfoo.so" |} ] |}) /\
  (exists e, outcome (mkinitramfs host_missing config_static) = inl e) /\
  ~ In call_write_trailer (calls (mkinitramfs host_missing config_static)).
Proof.
  split; [left; reflexivity|].
  apply (mkinitramfs_missing_library host_missing config_static
           {| dynamic := Some [ {| d_tag := "DT_NEEDED"; needed := "libfoo.so" |} ] |}
           "libfoo.so").
  - exists "ELF-dynamic". split; reflexivity.
  - left. reflexivity.
  - repeat constructor.
Defined.

Lemma copy_returns h p dst mode body :
  read_file h p = Some body ->
  copy h (Some p) dst mode = ([call_write_file dst body mode], inr tt).
Proof. intros H. unfold copy, open_rb. now rewrite H. Qed.



(** ** Basenames and module paths *)











(** ** Text that stays ASCII *)

Lemma is_ascii_app a b : is_ascii (a ++ b) = is_ascii a && is_ascii b.
Proof.
  unfold is_ascii. induction a as [|c a IH]; simpl; [reflexivity|].
  now rewrite IH, andb_assoc.
Qed.

Lemma is_ascii_escape_quotes s :
  is_ascii s = true -> is_ascii (shlex.escape_quotes s) = true.
Proof.
  unfold is_ascii. induction s as [|c s IH]; simpl; [reflexivity|].
  intros H. apply andb_prop in H as [Hc Hs].
  destruct (Ascii.eqb c "'"%char); simpl.
  - now apply IH.
  - rewrite Hc. now apply IH.
Qed.

Lemma is_ascii_quote s : is_ascii s = true -> is_ascii (shlex.quote s) = true.
Proof.
  intros Hs. unfold shlex.quote. destruct s as [|c s]; [reflexivity|].
  destruct (forallb shlex.is_safe (list_ascii_of_string (String c s))); [exact Hs|].
  rewrite !is_ascii_app, (is_ascii_escape_quotes _ Hs). reflexivity.
Qed.

Lemma is_ascii_basename_from tail p :
  is_ascii tail = true -> is_ascii p = true ->
  is_ascii (os_path.basename_from tail p) = true.
Proof.
  revert tail. induction p as [|c p IH]; intros tail Htail Hp; simpl; [exact Htail|].
  unfold is_ascii in Hp. simpl in Hp. apply andb_prop in Hp as [Hc Hp].
  destruct (Ascii.eqb c sep).
  - now apply IH.
  - apply IH; [|exact Hp]. rewrite is_ascii_app, Htail. unfold is_ascii. simpl.
    now rewrite Hc.
Qed.

Lemma is_ascii_load_line p : is_ascii p = true -> is_ascii (load_line p) = true.
Proof.
  intros Hp. unfold load_line.
  rewrite !is_ascii_app, (is_ascii_quote _ Hp).
  unfold os_path.basename.
  rewrite (is_ascii_basename_from EmptyString p eq_refl Hp).
  reflexivity.
Qed.

Lemma is_ascii_join_lines l :
  Forall (fun s => is_ascii s = true) l -> is_ascii (join nl l) = true.
Proof.
  induction 1 as [|s l Hs Hl IH]; [reflexivity|].
  destruct l as [|s' l']; [exact Hs|].
  change (join nl (s :: s' :: l')) with (s ++ nl ++ join nl (s' :: l')).
  now rewrite !is_ascii_app, Hs, IH.
Qed.

Lemma is_ascii_load_all_script paths :
  Forall (fun p => is_ascii p = true) paths ->
  is_ascii (load_all_script paths) = true.
Proof.
  intros Hpaths. unfold load_all_script. rewrite is_ascii_app.
  rewrite is_ascii_join_lines; [reflexivity|].
  induction Hpaths as [|p paths Hp _ IH]; simpl; constructor.
  - now apply is_ascii_load_line.
  - exact IH.
Qed.

Lemma is_ascii_modpath modfile :
  is_ascii (os_path.basename modfile) = true -> is_ascii (modpath modfile) = true.
Proof. intros H. unfold modpath. now rewrite is_ascii_app, H. Qed.

(** ** The module step *)

Lemma install_modules_loop_returns h modfiles paths :
  Forall (installable h) modfiles ->
  exists copies,
    Forall2 (installed h) modfiles copies /\
    install_modules_loop h modfiles paths
      = (copies, inr (paths ++ map modpath modfiles)%list).
Proof.
  intros Hall. revert paths.
  induction Hall as [|modfile rest ((body & Hread) & Hascii) _ IH]; intros paths.
  - exists []. split; [constructor|]. simpl. now rewrite app_nil_r.
  - destruct (IH (paths ++ [modpath modfile])%list) as (copies & Hcopies & Hloop).
    exists (call_write_file (modpath modfile) body o644 :: copies).
    split; [constructor; [now exists body|exact Hcopies]|].
    rewrite install_modules_loop_cons. unfold open_rb, encode_ascii.
    fold (modpath modfile).
    rewrite Hread, (is_ascii_modpath _ Hascii), Hloop, <- app_assoc. reflexivity.
Qed.

Lemma install_modules_returns h modfiles :
  Forall (installable h) modfiles ->
  exists copies,
    Forall2 (installed h) modfiles copies /\
    install_modules h modfiles =
      ((call_mkdir "modules" o755 :: copies ++ [load_all_call modfiles])%list, inr tt).
Proof.
  intros Hall.
  destruct (install_modules_loop_returns h modfiles [] Hall) as (copies & Hcopies & Hloop).
  exists copies. split; [exact Hcopies|].
  unfold install_modules, bind, mkdir, emit, lift, encode_ascii.
  rewrite Hloop. cbn [app].
  rewrite is_ascii_load_all_script; [reflexivity|].
  clear -Hall. induction Hall as [|modfile rest (_ & Hascii) _ IH]; simpl; constructor.
  - now apply is_ascii_modpath.
  - exact IH.
Qed.

(** X8: when every module file can be read and has an ASCII basename, the
    module step returns, whatever the names are otherwise (spaces, quotes):
    it creates [modules], writes each file, in order, at [modules/] and its
    basename with mode 0644, and then the loader script, which has one line
    per module, in the same order. *)
Theorem install_modules_installable h modfiles :
  Forall (installable h) modfiles ->
  exists copies,
    Forall2 (installed h) modfiles copies /\
    install_modules h modfiles =
      ((call_mkdir "modules" o755 :: copies
        ++ [call_write_file "modules/load_all.sh"
              (_LOGFUNC ++ join nl (map (fun m => load_line (modpath m)) modfiles))%string
              o644])%list,
       inr tt).
Proof.
  intros Hall.
  destruct (install_modules_returns h modfiles Hall) as (copies & Hcopies & Hrun).
  exists copies. split; [exact Hcopies|].
  rewrite Hrun. unfold load_all_call, load_all_script. now rewrite map_map.
Qed.

Lemma install_modules_installable_witness :
  Forall (installable host_dynamic) ["/srv/a.ko"; "b.ko"] /\
  exists copies,
    Forall2 (installed host_dynamic) ["/srv/a.ko"; "b.ko"] copies /\
    install_modules host_dynamic ["/srv/a.ko"; "b.ko"] =
      ((call_mkdir "modules" o755 :: copies
        ++ [call_write_file "modules/load_all.sh"
              (_LOGFUNC ++ join nl (map (fun m => load_line (modpath m))
                                        ["/srv/a.ko"; "b.ko"]))%string
              o644])%list,
       inr tt).
Proof.
  assert (H : Forall (installable host_dynamic) ["/srv/a.ko"; "b.ko"]).
  { repeat constructor.
    - exists "module-a". reflexivity.
    - exists "module-b". reflexivity. }
  split; [exact H|].
  exact (install_modules_installable host_dynamic ["/srv/a.ko"; "b.ko"] H).
Defined.

(** X9: the module step stops at the first module file that cannot be
    opened: with the files before it installable, it raises the exception
    of that [open], having created [modules] and written the files before
    it; the loader script is not written, and no later module is looked
    at. *)
Theorem install_modules_unreadable h before modfile after :
  Forall (installable h) before ->
  read_file h modfile = None ->
  exists copies,
    Forall2 (installed h) before copies /\
    install_modules h (before ++ modfile :: after)%list =
      ((call_mkdir "modules" o755 :: copies)%list, inl (OSError modfile)).
Proof.
  intros Hall Hnone.
  assert (Hloop : forall paths, exists copies,
    Forall2 (installed h) before copies /\
    install_modules_loop h (before ++ modfile :: after)%list paths
      = (copies, inl (OSError modfile))).
  { induction Hall as [|m rest ((body & Hread) & Hascii) _ IH]; intros paths.
    - exists []. split; [constructor|].
      simpl app. rewrite install_modules_loop_cons. unfold open_rb.
      now rewrite Hnone.
    - destruct (IH (paths ++ [modpath m])%list) as (copies & Hcopies & Hrun).
      exists (call_write_file (modpath m) body o644 :: copies).
      split; [constructor; [now exists body|exact Hcopies]|].
      rewrite <- app_comm_cons, install_modules_loop_cons.
      unfold open_rb, encode_ascii. fold (modpath m).
      rewrite Hread, (is_ascii_modpath _ Hascii), Hrun. reflexivity. }
  destruct (Hloop []) as (copies & Hcopies & Hrun).
  exists copies. split; [exact Hcopies|].
  unfold install_modules. now rewrite Hrun.
Qed.

Lemma install_modules_unreadable_witness :
  read_file host_dynamic "/srv/missing.ko" = None /\
  install_modules host_dynamic ["/srv/a.ko"; "/srv/missing.ko"; "b.ko"] =
    ([call_mkdir "modules" o755; call_write_file "modules/a.ko" "module-a" o644],
     inl (OSError "/srv/missing.ko")).
Proof.
  split; [reflexivity|].
  destruct (install_modules_unreadable host_dynamic ["/srv/a.ko"] "/srv/missing.ko" ["b.ko"])
    as (copies & _ & Hrun).
  - repeat constructor. exists "module-a". reflexivity.
  - reflexivity.
  - reflexivity.
Defined.

(** ** Builds that return *)




(** X11: the number of entries of a build that returns: thirty-one fixed
    ones (the layout, [bin/busybox], the tool links, [bin/real_progs], the
    modprobe stub, [init] and the trailer), one per declared library, one
    per payload pair and, when there is a module list, one per module file
    and two more for [modules] and the loader script. *)
Theorem mkinitramfs_entry_count h config elffile :
  is_executable h (busybox config) elffile ->
  outcome (mkinitramfs h config) = inr tt ->
  length (calls (mkinitramfs h config)) =
    31 + length (declared_needed elffile)
    + match modfiles config with
      | Some mods => 2 + length mods
      | None => 0
      end
    + length (virtme_data config).
Proof.
  intros Hexe Hok.
  destruct (mkinitramfs_inr_inv h config Hok)
    as (exe & entries & copies & modules & init
        & _ & Hdeps & Hcopies & Hmodules & _ & ->).
  rewrite (find_needed_paths_eq h _ _ Hexe) in Hdeps. injection Hdeps as Hdeps.
  assert (Hlen : length copies = length (declared_needed elffile)).
  { rewrite <- (Forall2_length Hcopies).
    rewrite <- (length_map (find_library_path h)), Hdeps.
    symmetry. apply length_map. }
  assert (Hmod : length modules =
                 match modfiles config with
                 | Some mods => 2 + length mods
                 | None => 0
                 end).
  { unfold modules_calls in Hmodules. destruct (modfiles config) as [mods|].
    - destruct Hmodules as (mcopies & Hm & ->). simpl.
      rewrite length_app, <- (Forall2_length Hm). simpl. lia.
    - now subst modules. }
  rewrite length_app. cbn [length]. rewrite !length_app, length_map.
  rewrite Hlen, Hmod. simpl. lia.
Qed.

Lemma mkinitramfs_entry_count_witness :
  outcome (mkinitramfs host_dynamic config_full) = inr tt /\
  length (calls (mkinitramfs host_dynamic config_full)) = 31 + 2 + (2 + 2) + 2.
Proof.
  split; [vm_compute; reflexivity|].
  apply (mkinitramfs_entry_count host_dynamic config_full elf_dynamic).
  - exists "ELF-dynamic". split; reflexivity.
  - vm_compute. reflexivity.
Defined.

(** ** What every entry of a build looks like *)

Lemma Forall_calls_bind_lift {A B} (P : CpioCall -> Prop) (r : result A)
      (k : A -> Cpio B) :
  (forall a, r = inr a -> Forall P (calls (k a))) ->
  Forall P (calls (bind (lift r) k)).
Proof.
  intros Hk. destruct r as [e|a]; unfold bind, lift; simpl; [constructor|].
  specialize (Hk a eq_refl). destruct (k a) as [out r]. exact Hk.
Qed.

Lemma prefix_modules s : String.prefix "modules/" ("modules/" ++ s) = true.
Proof. vm_compute. now destruct s. Qed.

Lemma in_special_calls c :
  (if in_dec CpioCall_eq_dec c special_calls then true else false) = true ->
  In c special_calls.
Proof. destruct (in_dec CpioCall_eq_dec c special_calls); [auto|discriminate]. Qed.

Ltac in_list := repeat first [left; reflexivity | right].

Ltac special_call := cbn [entry_ok]; apply in_special_calls; vm_compute; reflexivity.

Lemma entry_ok_fixed_layout : Forall entry_ok fixed_layout.
Proof. unfold fixed_layout. repeat (constructor; [special_call|]). constructor. Qed.

Lemma entry_ok_tools :
  Forall entry_ok (tool_links ++ [call_mkdir "bin/real_progs" o755])%list.
Proof.
  unfold tool_links. cbn [app].
  repeat (constructor; [special_call|]). constructor.
Qed.

Lemma entry_ok_copy h src dst :
  Forall entry_ok (calls (copy h src dst o755)).
Proof.
  unfold copy, write_file. apply Forall_calls_bind_lift. intros f _.
  apply Forall_calls_emit. now left.
Qed.

Lemma entry_ok_install_busybox h config :
  Forall entry_ok (calls (install_busybox h config)).
Proof.
  unfold install_busybox.
  apply Forall_calls_bind; [apply entry_ok_copy|intros _].
  apply Forall_calls_bind; [apply Forall_calls_lift|intros paths].
  apply Forall_calls_bind; [|intros _].
  - apply Forall_calls_for_each.
    intros [[needed_path target_path]|]; unfold install_needed.
    + apply Forall_calls_bind; [apply Forall_calls_lift|intros dst].
      apply entry_ok_copy.
    + constructor.
  - rewrite install_tools. apply entry_ok_tools.
Qed.

Lemma entry_ok_install_modules_loop h modfiles paths :
  Forall entry_ok (calls (install_modules_loop h modfiles paths)).
Proof.
  revert paths. induction modfiles as [|modfile rest IH]; intros paths.
  - constructor.
  - rewrite install_modules_loop_cons.
    apply Forall_calls_bind_lift. intros f _.
    apply Forall_calls_bind_lift. intros name Hname.
    apply encode_ascii_inr in Hname as [-> _].
    apply Forall_calls_bind; [|intros _; apply IH].
    apply Forall_calls_emit. right. split; [reflexivity|].
    apply prefix_modules.
Qed.

Lemma entry_ok_install_modules h modfiles :
  Forall entry_ok (calls (install_modules h modfiles)).
Proof.
  unfold install_modules.
  apply Forall_calls_bind; [apply Forall_calls_emit; special_call|intros _].
  apply Forall_calls_bind; [apply entry_ok_install_modules_loop|intros paths].
  apply Forall_calls_bind_lift. intros body _.
  apply Forall_calls_emit. right. split; [reflexivity|].
    apply prefix_modules.
Qed.

Lemma entry_ok_mkinitramfs h config :
  Forall entry_ok (calls (mkinitramfs h config)).
Proof.
  rewrite mkinitramfs_layout. cbn [calls fst].
  apply Forall_app. split; [apply entry_ok_fixed_layout|].
  unfold after_layout.
  apply Forall_calls_bind; [apply entry_ok_install_busybox|intros _].
  apply Forall_calls_bind; [apply Forall_calls_emit; now left|intros _].
  apply Forall_calls_bind; [|intros _].
  { destruct (modfiles config); [apply entry_ok_install_modules|constructor]. }
  apply Forall_calls_bind; [|intros _].
  { apply Forall_calls_for_each. intros [name contents].
    apply Forall_calls_emit. now left. }
  apply Forall_calls_bind_lift. intros init _.
  apply Forall_calls_bind; [apply Forall_calls_emit; now left|intros _].
  apply Forall_calls_emit. exact I.
Qed.

(** X12: the only directories a build ever creates are the eleven of the
    base layout, [bin/real_progs] and [modules], all with mode 0755.  No
    directory is created for what a copied file needs above it: not [usr]
    or [usr/lib] for a library resolved there, and none for a payload name
    that holds a separator. *)
Theorem mkinitramfs_directories h config name mode :
  In (call_mkdir name mode) (calls (mkinitramfs h config)) ->
  mode = o755 /\ In name (base_dirs ++ ["bin/real_progs"; "modules"])%list.
Proof.
  intros Hin.
  pose proof (entry_ok_mkinitramfs h config) as Hall.
  rewrite Forall_forall in Hall. specialize (Hall _ Hin).
  cbn [entry_ok] in Hall. unfold special_calls, fixed_layout, tool_links in Hall.
  cbn [app In] in Hall.
  repeat (destruct Hall as [Hall|Hall];
          [first [ discriminate Hall
                 | injection Hall as <- <-;
                   split; [reflexivity|]; cbn [base_dirs app In]; in_list ]|]).
  contradiction.
Qed.

Lemma mkinitramfs_directories_witness :
  In (call_mkdir "modules" o755) (calls (mkinitramfs host_dynamic config_full)) /\
  In "modules" (base_dirs ++ ["bin/real_progs"; "modules"])%list /\
  ~ In (call_mkdir "usr" o755) (calls (mkinitramfs host_dynamic config_full)) /\
  In (call_write_file "usr/lib/libc.so.6" "libc" o755)
     (calls (mkinitramfs host_dynamic config_full)).
Proof.
  assert (Hin : In (call_mkdir "modules" o755)
                   (calls (mkinitramfs host_dynamic config_full))).
  { vm_compute. in_list. }
  split; [exact Hin|].
  split; [exact (proj2 (mkinitramfs_directories host_dynamic config_full _ _ Hin))|].
  split.
  - intros Husr.
    destruct (mkinitramfs_directories host_dynamic config_full _ _ Husr) as [_ H].
    cbn [base_dirs app In] in H.
    repeat (destruct H as [H|H]; [discriminate H|]). exact H.
  - vm_compute. in_list.
Defined.

(** X13: every regular file of a build has mode 0755, but for the files
    of the module step, which have mode 0644 and a name under
    [modules/]: the copied modules and the loader script. *)
Theorem mkinitramfs_file_modes h config name body mode :
  In (call_write_file name body mode) (calls (mkinitramfs h config)) ->
  mode = o755 \/ (mode = o644 /\ String.prefix "modules/" name = true).
Proof.
  intros Hin. pose proof (entry_ok_mkinitramfs h config) as Hall.
  rewrite Forall_forall in Hall. exact (Hall _ Hin).
Qed.

Lemma mkinitramfs_file_modes_witness :
  In (call_write_file "modules/a.ko" "module-a" o644)
     (calls (mkinitramfs host_dynamic config_full)) /\
  (o644 = o755 \/ (o644 = o644 /\ String.prefix "modules/" "modules/a.ko" = true)).
Proof.
  assert (Hin : In (call_write_file "modules/a.ko" "module-a" o644)
                   (calls (mkinitramfs host_dynamic config_full)))
    by (vm_compute; in_list).
  split; [exact Hin|].
  exact (mkinitramfs_file_modes host_dynamic config_full _ _ _ Hin).
Defined.

(** X14: the only device nodes of a build are [dev/null], [dev/kmsg] and
    [dev/console] with their fixed numbers and modes, and the only links
    are [sbin] to [bin], [lib64] to [lib] and, to [busybox], [bin/] and the
    name of one of the ten tools. *)
Theorem mkinitramfs_links_and_devices h config :
  (forall name devno mode,
     In (call_mkchardev name devno mode) (calls (mkinitramfs h config)) ->
     In (name, devno, mode)
        [ ("dev/null", (1, 3)%N, o666); ("dev/kmsg", (1, 11)%N, o666);
          ("dev/console", (5, 1)%N, o660) ]) /\
  (forall src dst,
     In (call_symlink src dst) (calls (mkinitramfs h config)) ->
     In (src, dst) [("bin", "sbin"); ("lib", "lib64")] \/
     (src = "busybox" /\ exists tool, In tool busybox_tools /\ dst = "bin/" ++ tool)).
Proof.
  pose proof (entry_ok_mkinitramfs h config) as Hall.
  rewrite Forall_forall in Hall.
  split.
  - intros name devno mode Hin. specialize (Hall _ Hin).
    cbn [entry_ok] in Hall. unfold special_calls, fixed_layout, tool_links in Hall.
    cbn [app In] in Hall.
    repeat (destruct Hall as [Hall|Hall];
            [first [ discriminate Hall
                   | injection Hall as <- <- <-; in_list ]|]).
    contradiction.
  - intros src dst Hin. specialize (Hall _ Hin).
    cbn [entry_ok] in Hall. unfold special_calls, fixed_layout, tool_links in Hall.
    cbn [app In] in Hall.
    repeat (destruct Hall as [Hall|Hall];
            [first [ discriminate Hall
                   | injection Hall as <- <-;
                     first [ left; in_list; fail
                           | right; split; [reflexivity|];
                             eexists; split; [|reflexivity];
                             cbn [busybox_tools In]; in_list ] ]|]).
    contradiction.
Qed.

Lemma mkinitramfs_links_and_devices_witness :
  In (call_symlink "busybox" "bin/insmod")
     (calls (mkinitramfs host_dynamic config_full)) /\
  (In ("busybox", "bin/insmod") [("bin", "sbin"); ("lib", "lib64")] \/
   ("busybox" = "busybox" /\
    exists tool, In tool busybox_tools /\ "bin/insmod" = "bin/" ++ tool)).
Proof.
  assert (Hin : In (call_symlink "busybox" "bin/insmod")
                   (calls (mkinitramfs host_dynamic config_full)))
    by (vm_compute; in_list).
  split; [exact Hin|].
  exact (proj2 (mkinitramfs_links_and_devices host_dynamic config_full) _ _ Hin).
Defined.

(** ** The init script and the access mode *)

Lemma length_append (a b : string) :
  String.length (a ++ b) = String.length a + String.length b.
Proof. induction a as [|c a IH]; simpl; [reflexivity|]. now rewrite IH. Qed.

Lemma append_inv_head (a x y : string) : a ++ x = a ++ y -> x = y.
Proof. induction a as [|c a IH]; simpl; [auto|]. intros [= H]. auto. Qed.

Lemma append_inv_tail (a b t : string) : a ++ t = b ++ t -> a = b.
Proof.
  revert b. induction a as [|c a IH]; intros [|d b]; simpl; intros H.
  - reflexivity.
  - apply (f_equal String.length) in H. simpl in H. rewrite length_append in H. lia.
  - apply (f_equal String.length) in H. simpl in H. rewrite length_append in H. lia.
  - injection H as -> H. f_equal. now apply IH.
Qed.

Lemma generate_init_shape :
  exists head tail,
    forall config, generate_init config = inr (head ++ access config ++ tail).
Proof.
  pose (rendered :=
          match format _INIT [("logfunc", _LOGFUNC); ("access", EmptyString)] with
          | inr s => s
          | inl _ => EmptyString
          end).
  pose (at_access :=
          match String.index 0 (mount_prefix ++ mount_suffix) rendered with
          | Some n => n + String.length mount_prefix
          | None => 0
          end).
  exists (String.substring 0 at_access rendered).
  exists (String.substring at_access (String.length rendered) rendered).
  intros config. unfold generate_init, encode_utf8.
  generalize (access config). intros a. vm_compute. reflexivity.
Qed.

(** X15: the init script determines the access mode: two configurations
    give the same script exactly when they have the same access mode, and
    nothing else of a configuration has a part in the script. *)
Theorem generate_init_injective config1 config2 :
  generate_init config1 = generate_init config2 <-> access config1 = access config2.
Proof.
  destruct generate_init_shape as (head & tail & Hshape).
  rewrite !Hshape. split.
  - intros [= H]. apply append_inv_head in H. now apply append_inv_tail in H.
  - now intros ->.
Qed.

Lemma generate_init_injective_witness :
  access config_static = access Config_init /\
  generate_init config_static = generate_init Config_init.
Proof.
  split; [reflexivity|].
  apply (proj2 (generate_init_injective config_static Config_init)).
  reflexivity.
Defined.

(** ** Quoting for the shell *)





Example sh_word_quote_space :
  shlex.quote "modules/my mod's.ko" = "'modules/my mod'" ++ dq ++ "'" ++ dq ++ "'s.ko'" /\
  sh_word ("'modules/my mod'" ++ dq ++ "'" ++ dq ++ "'s.ko'") = Some "modules/my mod's.ko".
Proof. split; reflexivity. Qed.

Example sh_word_unquoted_space : sh_word "modules/my mod.ko" = None.
Proof. reflexivity. Qed.

(** ** A configuration without a module list *)

Lemma generate_init_sources_loader :
  exists head middle tail,
    forall config,
      generate_init config =
        inr (head ++ "source /modules/load_all.sh" ++ middle ++ access config ++ tail).
Proof.
  pose (rendered :=
          match format _INIT [("logfunc", _LOGFUNC); ("access", EmptyString)] with
          | inr s => s
          | inl _ => EmptyString
          end).
  pose (source := "source /modules/load_all.sh").
  pose (at_source :=
          match String.index 0 source rendered with
          | Some n => n
          | None => 0
          end).
  pose (at_access :=
          match String.index 0 (mount_prefix ++ mount_suffix) rendered with
          | Some n => n + String.length mount_prefix
          | None => 0
          end).
  exists (String.substring 0 at_source rendered).
  exists (String.substring (at_source + String.length source)
            (at_access - (at_source + String.length source)) rendered).
  exists (String.substring at_access (String.length rendered) rendered).
  intros config. unfold generate_init, encode_utf8.
  generalize (access config). intros a. vm_compute. reflexivity.
Qed.

Lemma copied_mode h entries copies name body mode :
  Forall2 (copied h) entries copies ->
  In (call_write_file name body mode) copies -> mode = o755.
Proof.
  induction 1 as [|entry call entries copies (b & _ & ->) _ IH]; simpl.
  - tauto.
  - intros [[= _ _ <-]|H]; [reflexivity|auto].
Qed.

(** X17: with no module list the module step is skipped, yet the init
    script is the same as ever: a build that returns then has no file of
    mode 0644, so no loader script written by the module step, and no
    [modules] directory, while its [init] entry still sources
    [/modules/load_all.sh] before it mounts the root. *)
Theorem mkinitramfs_without_modules h config :
  modfiles config = None ->
  outcome (mkinitramfs h config) = inr tt ->
  (forall name body, ~ In (call_write_file name body o644) (calls (mkinitramfs h config))) /\
  (forall mode, ~ In (call_mkdir "modules" mode) (calls (mkinitramfs h config))) /\
  exists head middle tail,
    In (call_write_file "init"
          (head ++ "source /modules/load_all.sh" ++ middle ++ access config ++ tail)
          o755)
       (calls (mkinitramfs h config)).
Proof.
  intros Hnone Hok.
  destruct (mkinitramfs_inr_inv h config Hok)
    as (exe & entries & copies & modules & init
        & _ & _ & Hcopies & Hmodules & Hinit & Hcalls).
  unfold modules_calls in Hmodules. rewrite Hnone in Hmodules. subst modules.
  split; [|split].
  - intros name body Hin.
    assert (H : o644 = o755); [|discriminate H].
    rewrite Hcalls in Hin.
    apply in_app_or in Hin as [Hin|Hin].
    { unfold fixed_layout in Hin. cbn [In] in Hin.
      repeat (destruct Hin as [Hin|Hin]; [discriminate Hin|]). contradiction. }
    destruct Hin as [Hin|Hin]; [now injection Hin|].
    apply in_app_or in Hin as [Hin|Hin];
      [exact (copied_mode h entries copies _ _ _ Hcopies Hin)|].
    apply in_app_or in Hin as [Hin|Hin].
    { unfold tool_links in Hin. cbn [In] in Hin.
      repeat (destruct Hin as [Hin|Hin]; [discriminate Hin|]). contradiction. }
    cbn [app In] in Hin. destruct Hin as [Hin|[Hin|Hin]]; try discriminate Hin.
    apply in_app_or in Hin as [Hin|Hin].
    + apply in_map_iff in Hin as (item & Hitem & _). now injection Hitem.
    + cbn [In] in Hin. destruct Hin as [Hin|[Hin|Hin]]; try discriminate Hin.
      contradiction.
  - intros mode Hin.
    rewrite Hcalls in Hin.
    apply in_app_or in Hin as [Hin|Hin].
    { unfold fixed_layout in Hin. cbn [In] in Hin.
      repeat (destruct Hin as [Hin|Hin]; [discriminate Hin|]). contradiction. }
    destruct Hin as [Hin|Hin]; [discriminate Hin|].
    apply in_app_or in Hin as [Hin|Hin];
      [exact (copied_not_mkdir h entries copies _ _ Hcopies Hin)|].
    apply in_app_or in Hin as [Hin|Hin].
    { unfold tool_links in Hin. cbn [In] in Hin.
      repeat (destruct Hin as [Hin|Hin]; [discriminate Hin|]). contradiction. }
    cbn [app In] in Hin. destruct Hin as [Hin|[Hin|Hin]]; try discriminate Hin.
    apply in_app_or in Hin as [Hin|Hin].
    + apply in_map_iff in Hin as (item & Hitem & _). discriminate Hitem.
    + cbn [In] in Hin. destruct Hin as [Hin|[Hin|Hin]]; try discriminate Hin.
      contradiction.
  - destruct generate_init_sources_loader as (head & middle & tail & Hshape).
    exists head, middle, tail.
    rewrite Hshape in Hinit. injection Hinit as <-.
    rewrite Hcalls.
    apply in_or_app. right. right.
    apply in_or_app. right.
    apply in_or_app. right.
    apply in_or_app. right.
    apply in_or_app. right.
    apply in_or_app. right.
    apply in_or_app. right. left. reflexivity.
Qed.

Lemma mkinitramfs_without_modules_witness :
  outcome (mkinitramfs host_static
             {| modfiles := None; virtme_data := []; virtme_init_path := None;
                busybox := Some busybox_path; access := "ro" |}) = inr tt /\
  forall mode,
    ~ In (call_mkdir "modules" mode)
         (calls (mkinitramfs host_static
                   {| modfiles := None; virtme_data := []; virtme_init_path := None;
                      busybox := Some busybox_path; access := "ro" |})).
Proof.
  split; [vm_compute; reflexivity|].
  apply (mkinitramfs_without_modules host_static
           {| modfiles := None; virtme_data := []; virtme_init_path := None;
              busybox := Some busybox_path; access := "ro" |}).
  - reflexivity.
  - vm_compute. reflexivity.
Defined.

(** ** A library that cannot be installed *)

Lemma for_each_install_needed_raises h before name after e :
  Forall (installable_library h) before ->
  install_needed h (find_library_path h name) = ([], inl e) ->
  exists copies,
    length copies = length before /\
    for_each (map (find_library_path h) (before ++ name :: after)%list)
             (install_needed h)
      = (copies, inl e).
Proof.
  intros Hall Hfail.
  induction Hall as [|lib rest (host & rel & body & Hfind & Hascii & Hread) _ IH].
  - exists []. split; [reflexivity|].
    cbn [app map for_each]. now rewrite Hfail.
  - destruct IH as (copies & Hlen & IH).
    exists (call_write_file rel body o755 :: copies).
    split; [simpl; now rewrite Hlen|].
    rewrite <- app_comm_cons. cbn [map for_each]. rewrite Hfind, IH.
    unfold install_needed, encode_ascii. rewrite Hascii.
    unfold copy, open_rb. rewrite Hread. reflexivity.
Qed.

Lemma mkinitramfs_library_raises h config elffile before name after e :
  is_executable h (busybox config) elffile ->
  declared_needed elffile = (before ++ name :: after)%list ->
  Forall (installable_library h) before ->
  install_needed h (find_library_path h name) = ([], inl e) ->
  exists exe copies,
    open_rb h (busybox config) = inr exe /\
    length copies = length before /\
    mkinitramfs h config =
      ((fixed_layout ++ call_write_file "bin/busybox" exe o755 :: copies)%list, inl e).
Proof.
  intros Hexe Hnames Hall Hfail.
  pose proof (find_needed_paths_eq h _ _ Hexe) as Hpaths.
  destruct Hexe as (exe & Hopen & _).
  destruct (for_each_install_needed_raises h before name after e Hall Hfail)
    as (copies & Hlen & Hloop).
  exists exe, copies. split; [exact Hopen|]. split; [exact Hlen|].
  rewrite mkinitramfs_layout.
  assert (Hbb : install_busybox h config
                = (call_write_file "bin/busybox" exe o755 :: copies, inl e)).
  { unfold install_busybox, copy. rewrite Hopen, Hpaths, Hnames.
    unfold bind, lift, write_file, emit. cbv beta iota.
    rewrite Hloop. reflexivity. }
  unfold after_layout. rewrite Hbb. reflexivity.
Qed.

(** X18: a library that resolves is not yet one that can be installed.
    With the libraries declared before it installed, a library whose
    archive path is not ASCII stops the build with [UnicodeEncodeError],
    before any attempt to open its file, and one whose resolved file cannot
    be opened stops it with the exception of that [open]; [bin/busybox] and
    the libraries before it are then already written, and nothing else
    is. *)
Theorem mkinitramfs_library_not_installable
        h config elffile before name after host rel :
  is_executable h (busybox config) elffile ->
  declared_needed elffile = (before ++ name :: after)%list ->
  Forall (installable_library h) before ->
  find_library_path h name = Some (host, rel) ->
  is_ascii rel = false \/ read_file h host = None ->
  exists exe copies,
    open_rb h (busybox config) = inr exe /\
    length copies = length before /\
    mkinitramfs h config =
      ((fixed_layout ++ call_write_file "bin/busybox" exe o755 :: copies)%list,
       inl (if is_ascii rel then OSError host else UnicodeEncodeError rel)).
Proof.
  intros Hexe Hnames Hall Hfind Hcannot.
  apply (mkinitramfs_library_raises h config elffile before name after _
           Hexe Hnames Hall).
  rewrite Hfind. unfold install_needed, encode_ascii.
  destruct (is_ascii rel); [|reflexivity].
  destruct Hcannot as [Hascii|Hread]; [discriminate Hascii|].
  unfold copy, open_rb. now rewrite Hread.
Qed.

Lemma mkinitramfs_library_not_installable_witness :
  find_library_path host_unreadable "libc.so.6"
    = Some ("/usr/lib/libc.so.6", "usr/lib/libc.so.6") /\
  read_file host_unreadable "/usr/lib/libc.so.6" = None /\
  exists exe copies,
    open_rb host_unreadable (busybox config_full) = inr exe /\
    length copies = 1 /\
    mkinitramfs host_unreadable config_full =
      ((fixed_layout ++ call_write_file "bin/busybox" exe o755 :: copies)%list,
       inl (OSError "/usr/lib/libc.so.6")).
Proof.
  split; [reflexivity|]. split; [reflexivity|].
  apply (mkinitramfs_library_not_installable host_unreadable config_full
           elf_dynamic ["libm.so.6"] "libc.so.6" []
           "/usr/lib/libc.so.6" "usr/lib/libc.so.6").
  - exists "ELF-dynamic". split; reflexivity.
  - reflexivity.
  - repeat constructor.
    exists "/lib64/libm.so.6", "lib64/libm.so.6", "libm". repeat split; reflexivity.
  - reflexivity.
  - right. reflexivity.
Defined.
